(** * Calcar: the price backfill procedure [scripts/update_car_prices.py]

    A shallow embedding of [update_prices] and of the Python operations it
    relies on, followed by the properties of the procedure.

    Modelling conventions.
    - Values are the objects [json.load] returns: [None], [bool], [int],
      [float], [str], [list] and [dict].  A [dict] is an association list in
      key-iteration order; [json.load] never produces a repeated key, lookups
      read the first binding.
    - A [float] is an IEEE 754 binary64 value, written with the Standard
      Library's [spec_float] and its operations at [prec = 53], [emax = 1024].
    - Text is ASCII: [str.lower], [str.strip], [str.isdigit] and [int(str)]
      are modelled on the ASCII range; a byte above 127 is kept as it is.
      The interpreter's limit on the length of a decimal literal passed to
      [int] is not modelled.
    - A raised exception is a value of [exn]; a computation that may raise
      returns a [result].
    - The two files are the fields of [files]; [update_prices] maps the files
      before the run to the files after it and to what the process reports.
    - The report loops of [analyze_tt.py] and [analyze_ford.py] are modelled
      from the dict [results] on, with [sum] over floats and [list.sort] as
      parameters. *)

From Stdlib Require Import ZArith List String Ascii Bool Lia.
From Stdlib Require Import SpecFloat DecimalString Permutation.
Import ListNotations.

Set Warnings "-register-all".

Local Open Scope string_scope.
Local Open Scope list_scope.
Local Open Scope Z_scope.

(** ** Values *)

Inductive json : Type :=
| JNull
| JBool (b : bool)
| JInt (z : Z)
| JFloat (f : spec_float)
| JStr (s : string)
| JList (l : list json)
| JDict (d : list (string * json)).

(** ** Exceptions and the error monad *)

Inductive exn : Type :=
| KeyError (k : string)
| TypeError
| ValueError
| AttributeError
| OverflowError.

Inductive result (A : Type) : Type :=
| Ok (a : A)
| Raise (e : exn).

Arguments Ok {A} a.
Arguments Raise {A} e.

Definition bind {A B : Type} (r : result A) (k : A -> result B) : result B :=
  match r with
  | Ok a => k a
  | Raise e => Raise e
  end.

Notation "x <- r ;; k" := (bind r (fun x => k))
  (at level 61, r at next level, right associativity).
Notation "' p <- r ;; k" := (bind r (fun x => let 'p := x in k))
  (at level 61, p pattern, r at next level, right associativity).

(** ** Dictionaries *)

Fixpoint lookup (k : string) (d : list (string * json)) : option json :=
  match d with
  | [] => None
  | (k', v) :: d' => if String.eqb k k' then Some v else lookup k d'
  end.

(** [d[k] = v] on a dict: an existing key keeps its place, a new key goes
    last. *)
Fixpoint setitem (k : string) (v : json) (d : list (string * json))
  : list (string * json) :=
  match d with
  | [] => [(k, v)]
  | (k', v') :: d' =>
      if String.eqb k k' then (k', v) :: d' else (k', v') :: setitem k v d'
  end.

Definition keys (d : list (string * json)) : list string := map fst d.

(** ** Strings *)

Definition lower_ascii (c : ascii) : ascii :=
  let n := N_of_ascii c in
  if ((65 <=? n) && (n <=? 90))%N then ascii_of_N (n + 32) else c.

Fixpoint lower (s : string) : string :=
  match s with
  | EmptyString => EmptyString
  | String c s' => String (lower_ascii c) (lower s')
  end.

(** [str.isspace] on one ASCII character: tab, line feed, vertical tab, form
    feed, carriage return, the four separators 28..31 and the space. *)
Definition is_space (c : ascii) : bool :=
  let n := N_of_ascii c in
  (((9 <=? n) && (n <=? 13)) || ((28 <=? n) && (n <=? 32)))%N.

Fixpoint lstrip (s : string) : string :=
  match s with
  | EmptyString => EmptyString
  | String c s' => if is_space c then lstrip s' else s
  end.

Fixpoint rstrip (s : string) : string :=
  match s with
  | EmptyString => EmptyString
  | String c s' =>
      match rstrip s' with
      | EmptyString => if is_space c then EmptyString else String c EmptyString
      | r => String c r
      end
  end.

Definition strip (s : string) : string := rstrip (lstrip s).

(** [normalize_key(key)]: [key.lower().strip()]. *)
Definition normalize_key (key : string) : string := strip (lower key).

Definition is_digit (c : ascii) : bool :=
  let n := N_of_ascii c in ((48 <=? n) && (n <=? 57))%N.

Definition digit_val (c : ascii) : Z := Z.of_N (N_of_ascii c) - 48.

Fixpoint all_digits (s : string) : bool :=
  match s with
  | EmptyString => true
  | String c s' => is_digit c && all_digits s'
  end.

(** [y.isdigit()]: at least one character, all of them digits. *)
Definition isdigit (s : string) : bool :=
  match s with
  | EmptyString => false
  | _ => all_digits s
  end.

(** The digits of an [int] literal after the sign; [acc] is the value read so
    far, [prev] tells whether the previous character was a digit (an
    underscore is accepted only between two digits). *)
Fixpoint int_digits (s : string) (acc : Z) (prev : bool) : option Z :=
  match s with
  | EmptyString => if prev then Some acc else None
  | String c s' =>
      if is_digit c then int_digits s' (10 * acc + digit_val c) true
      else if (Ascii.eqb c "_" && prev)%bool then int_digits s' acc false
      else None
  end.

(** The white space [int] skips around a number in ASCII text: tab, line
    feed, vertical tab, form feed, carriage return and the space.  The four
    separators 28..31, which [str.strip] drops, are not skipped. *)
Definition is_int_space (c : ascii) : bool :=
  let n := N_of_ascii c in
  (((9 <=? n) && (n <=? 13)) || (n =? 32))%N.

Fixpoint int_lstrip (s : string) : string :=
  match s with
  | EmptyString => EmptyString
  | String c s' => if is_int_space c then int_lstrip s' else s
  end.

Fixpoint int_rstrip (s : string) : string :=
  match s with
  | EmptyString => EmptyString
  | String c s' =>
      match int_rstrip s' with
      | EmptyString =>
          if is_int_space c then EmptyString else String c EmptyString
      | r => String c r
      end
  end.

(** [int(s)] for a [str]: surrounding white space is dropped, then an
    optional sign and the digits; [None] stands for [ValueError]. *)
Definition int_of_str (s : string) : option Z :=
  match int_rstrip (int_lstrip s) with
  | EmptyString => None
  | String c t =>
      if Ascii.eqb c "-" then option_map Z.opp (int_digits t 0 false)
      else if Ascii.eqb c "+" then int_digits t 0 false
      else int_digits (String c t) 0 false
  end.

(** [str(n)] for an [int]. *)
Definition str_of_int (n : Z) : string :=
  NilZero.string_of_int (Z.to_int n).

Arguments str_of_int : simpl never.

(** [needle in hay] for two [str]: substring test. *)
Fixpoint is_prefix (p s : string) : bool :=
  match p, s with
  | EmptyString, _ => true
  | String a p', String b s' => Ascii.eqb a b && is_prefix p' s'
  | String _ _, EmptyString => false
  end.

Fixpoint is_substring (p s : string) : bool :=
  is_prefix p s ||
  match s with
  | EmptyString => false
  | String _ s' => is_substring p s'
  end.

(** ** Numbers *)

Definition prec : Z := 53.
Definition emax : Z := 1024.

(** The conversion of an [int] to a [float] (round to nearest, ties to
    even); [OverflowError] when the integer is too large. *)
Definition float_of_int (z : Z) : result spec_float :=
  match binary_normalize prec emax z 0 false with
  | S754_infinity _ => Raise OverflowError
  | f => Ok f
  end.

(** The literal [100.0]. *)
Definition float_100 : spec_float :=
  Eval vm_compute in binary_normalize prec emax 100 0 false.

Definition int_of_bool (b : bool) : Z := if b then 1 else 0.

(** [x / 100.0]. *)
Definition truediv_100 (x : json) : result spec_float :=
  match x with
  | JInt z => f <- float_of_int z ;; Ok (SFdiv prec emax f float_100)
  | JBool b => f <- float_of_int (int_of_bool b) ;; Ok (SFdiv prec emax f float_100)
  | JFloat f => Ok (SFdiv prec emax f float_100)
  | _ => Raise TypeError
  end.

(** The integer nearest to [m * 2^e], ties to the even one. *)
Definition round_half_even (m e : Z) : Z :=
  if 0 <=? e then m * 2 ^ e
  else
    let d := 2 ^ (- e) in
    let q := m / d in
    match 2 * (m mod d) ?= d with
    | Lt => q
    | Gt => q + 1
    | Eq => if Z.even q then q else q + 1
    end.

(** [round(x)] for a [float], one argument: an [int]. *)
Definition py_round (x : spec_float) : result Z :=
  match x with
  | S754_nan => Raise ValueError
  | S754_infinity _ => Raise OverflowError
  | S754_zero _ => Ok 0
  | S754_finite s m e => Ok (cond_Zopp s (round_half_even (Zpos m) e))
  end.

(** [int(x)] for a [float]: truncation towards zero. *)
Definition float_trunc (x : spec_float) : result Z :=
  match x with
  | S754_nan => Raise ValueError
  | S754_infinity _ => Raise OverflowError
  | S754_zero _ => Ok 0
  | S754_finite s m e =>
      Ok (cond_Zopp s (if 0 <=? e then Zpos m * 2 ^ e else Zpos m / 2 ^ (- e)))
  end.

(** The exact comparison of a [float] with an [int]; [None] for a NaN. *)
Definition float_compare_int (x : spec_float) (z : Z) : option comparison :=
  match x with
  | S754_nan => None
  | S754_infinity s => Some (if s then Lt else Gt)
  | S754_zero _ => Some (0 ?= z)
  | S754_finite s m e =>
      let v := cond_Zopp s (Zpos m) in
      if 0 <=? e then Some (v * 2 ^ e ?= z) else Some (v ?= z * 2 ^ (- e))
  end.

(** [n != v] for an [int] [n]: an [int], a [bool] or a [float] of the same
    value is equal to it, nothing else is. *)
Definition ne_int (n : Z) (v : json) : bool :=
  match v with
  | JInt z => negb (n =? z)
  | JBool b => negb (n =? int_of_bool b)
  | JFloat f =>
      match float_compare_int f n with
      | Some Eq => false
      | _ => true
      end
  | _ => true
  end.

Inductive number : Type :=
| NInt (z : Z)
| NFloat (f : spec_float).

Definition as_number (v : json) : option number :=
  match v with
  | JInt z => Some (NInt z)
  | JBool b => Some (NInt (int_of_bool b))
  | JFloat f => Some (NFloat f)
  | _ => None
  end.

Definition is_Lt (c : option comparison) : bool :=
  match c with Some Lt => true | _ => false end.

Definition is_Gt (c : option comparison) : bool :=
  match c with Some Gt => true | _ => false end.

Definition number_gt (x y : number) : bool :=
  match x, y with
  | NInt a, NInt b => b <? a
  | NInt a, NFloat g => is_Lt (float_compare_int g a)
  | NFloat f, NInt b => is_Gt (float_compare_int f b)
  | NFloat f, NFloat g => SFltb g f
  end.

(** [a > b].  A number against a number is compared by value, a number
    against anything else raises [TypeError].  The only comparison of the
    procedure has a number on its left (lemma [sanity_left_number] below);
    other left operands are not modelled and are given [TypeError]. *)
Definition py_gt (a b : json) : result bool :=
  match as_number a, as_number b with
  | Some x, Some y => Ok (number_gt x y)
  | _, _ => Raise TypeError
  end.

(** [int(x)]. *)
Definition py_int (x : json) : result Z :=
  match x with
  | JInt z => Ok z
  | JBool b => Ok (int_of_bool b)
  | JFloat f => float_trunc f
  | JStr s =>
      match int_of_str s with
      | Some z => Ok z
      | None => Raise ValueError
      end
  | _ => Raise TypeError
  end.

(** The truth value of an object in a condition. *)
Definition truthy (v : json) : bool :=
  match v with
  | JNull => false
  | JBool b => b
  | JInt z => negb (z =? 0)
  | JFloat (S754_zero _) => false
  | JFloat _ => true
  | JStr EmptyString => false
  | JStr _ => true
  | JList [] => false
  | JList _ => true
  | JDict [] => false
  | JDict _ => true
  end.

(** ** Subscripts, membership and methods *)

(** [o[k]] for a [str] [k]. *)
Definition getitem (o : json) (k : string) : result json :=
  match o with
  | JDict d =>
      match lookup k d with
      | Some v => Ok v
      | None => Raise (KeyError k)
      end
  | _ => Raise TypeError
  end.

Definition eq_str (k : string) (v : json) : bool :=
  match v with
  | JStr s => String.eqb k s
  | _ => false
  end.

(** [k in o] for a [str] [k]: a key of a dict, an element of a list, a
    substring of a str. *)
Definition contains (k : string) (o : json) : result bool :=
  match o with
  | JDict d => Ok (existsb (String.eqb k) (keys d))
  | JList l => Ok (existsb (eq_str k) l)
  | JStr s => Ok (is_substring k s)
  | _ => Raise TypeError
  end.

(** [o.keys()]: only a dict has the method. *)
Definition dict_keys (o : json) : result (list string) :=
  match o with
  | JDict d => Ok (keys d)
  | _ => Raise AttributeError
  end.

(** [normalize_key(v)] for an object [v]: only a str has [lower]. *)
Definition normalize (v : json) : result string :=
  match v with
  | JStr s => Ok (normalize_key s)
  | _ => Raise AttributeError
  end.

(** ** The procedure *)

Definition CURRENT_YEAR : Z := 2026.
Definition DATA_YEAR : Z := 2022.

(** [min(x :: l, key=key)]: the first element whose key is least. *)
Fixpoint min_by (key : Z -> Z) (x : Z) (l : list Z) : Z :=
  match l with
  | [] => x
  | y :: l' => if key y <? key x then min_by key y l' else min_by key x l'
  end.

(** [[int(y) for y in ks if y.isdigit()]]. *)
Fixpoint avail_years (ks : list string) : result (list Z) :=
  match ks with
  | [] => Ok []
  | y :: ks' =>
      if isdigit y then
        n <- py_int (JStr y) ;; ys <- avail_years ks' ;; Ok (n :: ys)
      else avail_years ks'
  end.

(** [make in stats and model in stats[make] and fuel in stats[make][model]]. *)
Definition has_path (stats : json) (make model fuel : string) : result bool :=
  b1 <- contains make stats ;;
  if b1 then
    by_make <- getitem stats make ;;
    b2 <- contains model by_make ;;
    if b2 then
      by_model <- getitem by_make model ;;
      contains fuel by_model
    else Ok false
  else Ok false.

Definition distance (target_lookup_year x : Z) : Z :=
  Z.abs (x - target_lookup_year).

(** The lookup inside the matched fuel-type mapping: the exact year, or else
    the closest of the all-digit keys; [None] when there is none. *)
Definition lookup_year (model_data : json) (target_lookup_year : Z)
  : result json :=
  let target_str := str_of_int target_lookup_year in
  exact <- contains target_str model_data ;;
  if exact then getitem model_data target_str
  else
    ks <- dict_keys model_data ;;
    years <- avail_years ks ;;
    match years with
    | [] => Ok JNull
    | y :: ys =>
        let closest_year := min_by (distance target_lookup_year) y ys in
        getitem model_data (str_of_int closest_year)
    end.

(** The value of [found_data] when the condition at its use is reached. *)
Definition find_data (stats : json) (make model fuel : string)
    (target_lookup_year : Z) : result json :=
  path <- has_path stats make model fuel ;;
  if path then
    by_make <- getitem stats make ;;
    by_model <- getitem by_make model ;;
    model_data <- getitem by_model fuel ;;
    lookup_year model_data target_lookup_year
  else Ok JNull.

(** [o[k] = v]. *)
Definition store (o : json) (k : string) (v : json) : result json :=
  match o with
  | JDict d => Ok (JDict (setitem k v d))
  | _ => Raise TypeError
  end.

(** [int(round(avg_price / 100.0)) * 100]. *)
Definition new_price_of (avg_price : json) : result Z :=
  q <- truediv_100 avg_price ;;
  r <- py_round q ;;
  Ok (r * 100).

(** The branch taken when [found_data] is true. *)
Definition apply_price (car found_data : json) (updated_count : nat)
  : result (json * nat) :=
  avg_price <- getitem found_data "avgPrice" ;;
  new_price <- new_price_of avg_price ;;
  basic <- getitem car "basicPrice" ;;
  '(car1, updated1) <-
    (if ne_int new_price basic then
       car' <- store car "basicPrice" (JInt new_price) ;;
       Ok (car', S updated_count)
     else Ok (car, updated_count)) ;;
  basic1 <- getitem car1 "basicPrice" ;;
  list_price <- getitem car1 "originalListPrice" ;;
  _ <- py_gt basic1 list_price ;;
  Ok (car1, updated1).

(** The lookup key of a [car]: the three normalized names and
    [target_lookup_year]. *)
Definition lookup_key (car : json) : result (string * string * string * Z) :=
  v_make <- getitem car "make" ;;
  make <- normalize v_make ;;
  v_model <- getitem car "model" ;;
  model <- normalize v_model ;;
  v_fuel <- getitem car "fuelType" ;;
  fuel <- normalize v_fuel ;;
  v_year <- getitem car "yearOfManufacture" ;;
  car_year_int <- py_int v_year ;;
  let current_age := CURRENT_YEAR - car_year_int in
  let target_lookup_year := DATA_YEAR - current_age in
  Ok (make, model, fuel, target_lookup_year).

(** The body of the loop on one [car], with the two counters. *)
Definition update_car (stats car : json) (updated_count missing_count : nat)
  : result (json * nat * nat) :=
  '(make, model, fuel, target_lookup_year) <- lookup_key car ;;
  found_data <- find_data stats make model fuel target_lookup_year ;;
  if truthy found_data then
    '(car1, updated1) <- apply_price car found_data updated_count ;;
    Ok (car1, updated1, missing_count)
  else Ok (car, updated_count, S missing_count).

(** [for car in cars] over a list of records. *)
Fixpoint update_loop (stats : json) (cars : list json)
    (updated_count missing_count : nat) : result (list json * nat * nat) :=
  match cars with
  | [] => Ok ([], updated_count, missing_count)
  | car :: rest =>
      '(car1, u1, m1) <- update_car stats car updated_count missing_count ;;
      '(rest1, u2, m2) <- update_loop stats rest u1 m1 ;;
      Ok (car1 :: rest1, u2, m2)
  end.

Fixpoint chars (s : string) : list json :=
  match s with
  | EmptyString => []
  | String c s' => JStr (String c EmptyString) :: chars s'
  end.

(** The items [for car in cars] visits: the elements of a list, the keys of
    a dict, the characters of a str. *)
Definition py_iter (cars : json) : result (list json) :=
  match cars with
  | JList l => Ok l
  | JDict d => Ok (map JStr (keys d))
  | JStr s => Ok (chars s)
  | _ => Raise TypeError
  end.

(** The loop over the loaded catalog: the catalog as it is in memory when the
    loop ends, and the two counters.  Only the records of a list can be
    changed; the keys of a dict and the characters of a str are not. *)
Definition run_loop (stats cars : json) : result (json * nat * nat) :=
  match cars with
  | JList l =>
      '(l1, u, m) <- update_loop stats l 0%nat 0%nat ;;
      Ok (JList l1, u, m)
  | _ =>
      items <- py_iter cars ;;
      '(_, u, m) <- update_loop stats items 0%nat 0%nat ;;
      Ok (cars, u, m)
  end.

(** The two files the procedure opens. *)
Record files : Type := {
  cars_json : json;
  market_stats_json : json
}.

(** [update_prices()]: the files after the run and either the two counts
    printed, [updated_count] and [missing_count], or the exception that ended
    the run.  The catalog is written only after the loop and the two prints. *)
Definition update_prices (fs : files) : files * result (nat * nat) :=
  match run_loop (market_stats_json fs) (cars_json fs) with
  | Ok (cars, updated_count, missing_count) =>
      ({| cars_json := cars; market_stats_json := market_stats_json fs |},
       Ok (updated_count, missing_count))
  | Raise e => (fs, Raise e)
  end.

(** ** The vehicle and the tables of the specification's scenarios *)

Definition focus_listed (basic list_price : json) : json :=
  JDict [("make", JStr "Ford"); ("model", JStr "Focus");
         ("fuelType", JStr "Petrol"); ("yearOfManufacture", JInt 2018);
         ("basicPrice", basic); ("originalListPrice", list_price)].

Definition focus (basic : json) : json := focus_listed basic (JInt 12000).

(** The same vehicle without [originalListPrice], and without [model]. *)
Definition focus_no_list_price : json :=
  JDict [("make", JStr "Ford"); ("model", JStr "Focus");
         ("fuelType", JStr "Petrol"); ("yearOfManufacture", JInt 2018);
         ("basicPrice", JInt 5000)].

Definition focus_no_model : list (string * json) :=
  [("make", JStr "Ford"); ("fuelType", JStr "Petrol");
   ("yearOfManufacture", JInt 2018); ("basicPrice", JInt 5000);
   ("originalListPrice", JInt 12000)].

(** The same vehicle with a year that is not a number. *)
Definition focus_bad_year : json :=
  JDict [("make", JStr "Ford"); ("model", JStr "Focus");
         ("fuelType", JStr "Petrol"); ("yearOfManufacture", JStr "20x8");
         ("basicPrice", JInt 5000); ("originalListPrice", JInt 12000)].

Definition avg (n : Z) : json := JDict [("avgPrice", JInt n)].

Definition focus_stats (years : list (string * json)) : json :=
  JDict [("ford", JDict [("focus", JDict [("petrol", JDict years)])])].

Definition scenario (stats : json) : files :=
  {| cars_json := JList [focus (JInt 5000)]; market_stats_json := stats |}.

(** The two years equally far from 2014, in the two key orders, and a key
    with a leading zero. *)
Definition later_first : list (string * json) :=
  [("2016", avg 5000); ("2012", avg 7000)].

Definition earlier_first : list (string * json) :=
  [("2012", avg 7000); ("2016", avg 5000)].

Definition leading_zero : list (string * json) := [("02012", avg 7000)].

(** A catalog of three vehicles: one gets a new price, one already has the
    price of the table, one has a make the table does not know. *)
Definition kia : json :=
  JDict [("make", JStr "Kia"); ("model", JStr "Rio");
         ("fuelType", JStr "Petrol"); ("yearOfManufacture", JInt 2018);
         ("basicPrice", JInt 4000); ("originalListPrice", JInt 9000)].

Definition three_cars : files :=
  {| cars_json := JList [focus (JInt 5000); focus (JInt 6400); kia];
     market_stats_json := focus_stats [("2014", avg 6430)] |}.

(** ** Vocabulary of the statements *)

(** The fields the body reads for every record, in the order it reads
    them, and the three of them that must be strings. *)
Definition always_read : list string :=
  ["make"; "model"; "fuelType"; "yearOfManufacture"].

Definition names : list string := ["make"; "model"; "fuelType"].

(** The fields the body reads before it reads [k]. *)
Fixpoint prefix_before (k : string) (l : list string) : list string :=
  match l with
  | [] => []
  | x :: l' => if String.eqb x k then [] else x :: prefix_before k l'
  end.

Definition read_before (k : string) : list string :=
  prefix_before k always_read.

(** The fuel-type mapping reached through three levels of dicts. *)
Definition fuel_level (stats : json) (make model fuel : string)
  : option (list (string * json)) :=
  match stats with
  | JDict by_make =>
      match lookup make by_make with
      | Some (JDict by_model) =>
          match lookup model by_model with
          | Some (JDict by_fuel) =>
              match lookup fuel by_fuel with
              | Some (JDict model_data) => Some model_data
              | _ => None
              end
          | _ => None
          end
      | _ => None
      end
  | _ => None
  end.

(** The year an all-digit key stands for. *)
Definition year_of_key (k : string) : Z :=
  match int_of_str k with
  | Some n => n
  | None => 0
  end.

(** The years of the all-digit keys, in key order. *)
Definition digit_years (ks : list string) : list Z :=
  map year_of_key (filter isdigit ks).

(** An all-digit key is canonical when it is the decimal writing of its
    year (no leading zero). *)
Definition canonical_keys (ks : list string) : Prop :=
  forall k, In k ks -> isdigit k = true -> str_of_int (year_of_key k) = k.

(** [x] is the first of the elements of [l] nearest to [t]. *)
Definition first_nearest (t x : Z) (l : list Z) : Prop :=
  exists l1 l2,
    l = l1 ++ x :: l2 /\
    (forall y, In y l1 -> distance t x < distance t y) /\
    (forall y, In y l2 -> distance t x <= distance t y).

(** Two records that differ at most in the value of [basicPrice]: same keys
    in the same order, same value under every other key. *)
Definition same_but_basicPrice (car car' : json) : Prop :=
  car' = car \/
  exists d d',
    car = JDict d /\ car' = JDict d' /\ keys d' = keys d /\
    forall k, k <> "basicPrice" -> lookup k d' = lookup k d.

(** A value [py_gt] accepts on its right when a number is on its left. *)
Definition is_number (v : json) : Prop := as_number v <> None.

(** The record the body leaves when a price [n] is found for [car] whose
    [basicPrice] is [basic]. *)
Definition priced (car : json) (n : Z) (basic : json) : json :=
  if ne_int n basic then
    match car with
    | JDict d => JDict (setitem "basicPrice" (JInt n) d)
    | _ => car
    end
  else car.

(** [target_lookup_year] for a year of manufacture. *)
Definition target_year (year : Z) : Z :=
  DATA_YEAR - (CURRENT_YEAR - year).

(** A record whose [make], [model] and [fuelType] are the given strings and
    whose [yearOfManufacture] converts to [year]. *)
Definition vehicle (car : json) (make model fuel : string) (year : Z) : Prop :=
  getitem car "make" = Ok (JStr make) /\
  getitem car "model" = Ok (JStr model) /\
  getitem car "fuelType" = Ok (JStr fuel) /\
  exists v_year, getitem car "yearOfManufacture" = Ok v_year /\
                 py_int v_year = Ok year.

(** The multiple of 100 nearest to an integer, the even multiple at a tie:
    what the rounding of the procedure is meant to compute. *)
Definition nearest_hundred (a : Z) : Z :=
  let q := a / 100 in
  match a mod 100 ?= 50 with
  | Lt => 100 * q
  | Gt => 100 * (q + 1)
  | Eq => if Z.even q then 100 * q else 100 * (q + 1)
  end.

Definition rounds_to_nearest_hundred (a : Z) : bool :=
  match new_price_of (JInt a) with
  | Ok n => n =? nearest_hundred a
  | Raise _ => false
  end.

(** A string of white space only. *)
Fixpoint is_blank (s : string) : bool :=
  match s with
  | EmptyString => true
  | String c s' => is_space c && is_blank s'
  end.

(** The record [car'] holds an integer [basicPrice] that the comparison of
    the procedure tells apart from the [basicPrice] of [car]. *)
Definition basic_differs (car car' : json) : bool :=
  match getitem car "basicPrice", getitem car' "basicPrice" with
  | Ok b, Ok (JInt n) => ne_int n b
  | _, _ => false
  end.

(** The number of places at which [basic_differs] holds. *)
Fixpoint count_changed (cars cars' : list json) : nat :=
  match cars, cars' with
  | c :: l, c' :: l' =>
      ((if basic_differs c c' then 1 else 0) + count_changed l l')%nat
  | _, _ => 0%nat
  end.

(** ** The report loops of [analyze_tt.py] and [analyze_ford.py]

    Both scripts fill a dict [results], from each year of [target_years]
    to the list of the adverts selected for it, and then print a report
    year by year.  The report loops are modelled from [results] on; the
    first loops (reading the CSV file, [float] of a string) are not.  A
    printed line is the tuple of the values it shows, not its text.  Two
    builtins are parameters: [sum] over floats, whose rounding depends on
    the version of the interpreter, and [list.sort], of which only the fact
    that it permutes the list is used. *)

Inductive report_exn : Type :=
| Builtin (e : exn)
| ZeroDivisionError.

(** The value of [sum] over floats: the [int] 0 when there is none. *)
Inductive total : Type :=
| Zero_int
| Total (f : spec_float).

(** The [float] of the length of a list: a length is below [2^63], so the
    conversion cannot overflow. *)
Definition float_of_count (n : nat) : spec_float :=
  binary_normalize prec emax (Z.of_nat n) 0 false.

(** [x / n] for a sum [x] and a count [n]; [None] is [ZeroDivisionError]. *)
Definition div_count (x : total) (n : nat) : option spec_float :=
  match n with
  | O => None
  | S _ =>
      Some match x with
           | Zero_int => S754_zero false
           | Total f => SFdiv prec emax f (float_of_count n)
           end
  end.

(** [results[year]] and [results[year] = data] for a dict from years to
    lists. *)
Fixpoint assoc {A : Type} (k : string) (d : list (string * A)) : option A :=
  match d with
  | [] => None
  | (k', v) :: d' => if String.eqb k k' then Some v else assoc k d'
  end.

Fixpoint assoc_set {A : Type} (k : string) (v : A) (d : list (string * A))
  : list (string * A) :=
  match d with
  | [] => [(k, v)]
  | (k', v') :: d' =>
      if String.eqb k k' then (k', v) :: d' else (k', v') :: assoc_set k v d'
  end.

(** What the first loop of [analyze_tt.py] appends for a selected row. *)
Record tt_advert : Type := {
  tt_price : spec_float;
  tt_variant : json;
  tt_title : json;
  tt_miles : json;
  tt_high_perf : bool
}.

(** What the first loop of [analyze_ford.py] appends for a selected row. *)
Record ford_advert : Type := {
  ford_price : spec_float;
  ford_model : json;
  ford_is_outlier_type : bool
}.

(** The lines of the two reports. *)
Inductive tt_line : Type :=
| TT_year (year : string) (count : nat) (avg : spec_float)
    (high_perf_count : nat)
| TT_high (avg : spec_float)
| TT_normal (avg : spec_float)
| TT_no_data (year : string).

Inductive ford_line : Type :=
| Ford_year (year : string) (age : Z) (avg : spec_float)
    (normal_count : nat) (avg_normal : number)
    (outlier_count : nat) (avg_outlier : number).

Definition tt_target_years : list string :=
  ["2005"; "2006"; "2007"; "2008"; "2009"; "2010"; "2011"].

Definition ford_target_years : list string :=
  ["2002"; "2003"; "2004"; "2009"; "2010"; "2011"; "2012"].

Definition tt_normal (r : tt_advert) : bool := negb (tt_high_perf r).

Definition ford_normal (r : ford_advert) : bool :=
  negb (ford_is_outlier_type r).

Section Reports.

Variable float_sum : list spec_float -> spec_float.
Variable sort_by_price : list tt_advert -> list tt_advert.

(** [sum(xs)] for a list of floats. *)
Definition py_sum (xs : list spec_float) : total :=
  match xs with
  | [] => Zero_int
  | _ => Total (float_sum xs)
  end.

(** The body of the report loop of [analyze_tt.py] for one year: the
    lines printed, the exception raised if any, and the list [data] as
    the body leaves it. *)
Definition tt_report_year (year : string) (data : list tt_advert)
  : list tt_line * option report_exn * list tt_advert :=
  match data with
  | [] => ([TT_no_data year], None, data)
  | _ =>
      let prices := map tt_price data in
      match div_count (py_sum prices) (List.length prices) with
      | None => ([], Some ZeroDivisionError, data)
      | Some avg =>
          let high_perf_count := List.length (filter tt_high_perf data) in
          let data := sort_by_price data in
          let line := TT_year year (List.length data) avg high_perf_count in
          if (0 <? high_perf_count)%nat then
            match div_count
                    (py_sum (map tt_price (filter tt_high_perf data)))
                    high_perf_count with
            | None => ([line], Some ZeroDivisionError, data)
            | Some avg_high =>
                match div_count
                        (py_sum (map tt_price (filter tt_normal data)))
                        (List.length data - high_perf_count) with
                | None =>
                    ([line; TT_high avg_high], Some ZeroDivisionError, data)
                | Some avg_normal =>
                    ([line; TT_high avg_high; TT_normal avg_normal],
                     None, data)
                end
            end
          else ([line], None, data)
      end
  end.

(** [for year in target_years] of [analyze_tt.py]. *)
Fixpoint tt_report (results : list (string * list tt_advert))
    (years : list string) : list tt_line * option report_exn :=
  match years with
  | [] => ([], None)
  | year :: rest =>
      match assoc year results with
      | None => ([], Some (Builtin (KeyError year)))
      | Some data =>
          match tt_report_year year data with
          | (lines, Some e, _) => (lines, Some e)
          | (lines, None, data') =>
              let '(lines', e) :=
                tt_report (assoc_set year data' results) rest in
              (lines ++ lines', e)
          end
      end
  end.

(** [sum(...) / len(l) if l else 0] of [analyze_ford.py]. *)
Definition ford_avg (l : list ford_advert) : option number :=
  match l with
  | [] => Some (NInt 0)
  | _ =>
      option_map NFloat
        (div_count (py_sum (map ford_price l)) (List.length l))
  end.

(** The body of the report loop of [analyze_ford.py] for one year. *)
Definition ford_report_year (year : string) (data : list ford_advert)
  : list ford_line * option report_exn :=
  match data with
  | [] => ([], None)
  | _ =>
      let prices := map ford_price data in
      match div_count (py_sum prices) (List.length prices) with
      | None => ([], Some ZeroDivisionError)
      | Some avg =>
          let outliers := filter ford_is_outlier_type data in
          let normal := filter ford_normal data in
          match ford_avg normal with
          | None => ([], Some ZeroDivisionError)
          | Some avg_normal =>
              match ford_avg outliers with
              | None => ([], Some ZeroDivisionError)
              | Some avg_outlier =>
                  match int_of_str year with
                  | None => ([], Some (Builtin ValueError))
                  | Some y =>
                      ([Ford_year year (2022 - y) avg
                          (List.length normal) avg_normal
                          (List.length outliers) avg_outlier], None)
                  end
              end
          end
      end
  end.

(** [for year in target_years] of [analyze_ford.py]. *)
Fixpoint ford_report (results : list (string * list ford_advert))
    (years : list string) : list ford_line * option report_exn :=
  match years with
  | [] => ([], None)
  | year :: rest =>
      match assoc year results with
      | None => ([], Some (Builtin (KeyError year)))
      | Some data =>
          match ford_report_year year data with
          | (lines, Some e) => (lines, Some e)
          | (lines, None) =>
              let '(lines', e) := ford_report results rest in
              (lines ++ lines', e)
          end
      end
  end.

End Reports.

(** A year with adverts, all of them high-performance. *)
Definition all_high_perf (data : list tt_advert) : bool :=
  match data with
  | [] => false
  | _ => forallb tt_high_perf data
  end.

Definition tt_bad_year (results : list (string * list tt_advert))
    (year : string) : bool :=
  match assoc year results with
  | Some data => all_high_perf data
  | None => false
  end.

(** A target year for which [results] holds adverts. *)
Definition ford_has_data (results : list (string * list ford_advert))
    (year : string) : bool :=
  match assoc year results with
  | Some (_ :: _) => true
  | _ => false
  end.

(** A sum and a sort to run the reports with: the sum from left to right
    and the insertion sort by price. *)
Definition sum_left (xs : list spec_float) : spec_float :=
  fold_left (SFadd prec emax) xs (S754_zero false).

Fixpoint insert_by_price (r : tt_advert) (l : list tt_advert)
  : list tt_advert :=
  match l with
  | [] => [r]
  | r' :: l' =>
      if SFltb (tt_price r') (tt_price r) then r' :: insert_by_price r l'
      else r :: l
  end.

Fixpoint insertion_sort (l : list tt_advert) : list tt_advert :=
  match l with
  | [] => []
  | r :: l' => insert_by_price r (insertion_sort l')
  end.

Definition tt_row (p : Z) (hp : bool) : tt_advert :=
  {| tt_price := binary_normalize prec emax p 0 false;
     tt_variant := JStr "N/A"; tt_title := JStr "N/A";
     tt_miles := JStr "N/A"; tt_high_perf := hp |}.

Definition ford_row (p : Z) (o : bool) : ford_advert :=
  {| ford_price := binary_normalize prec emax p 0 false;
     ford_model := JStr "Fiesta"; ford_is_outlier_type := o |}.

(** The [results] of a file with adverts for 2006 and 2008 only. *)
Definition tt_results : list (string * list tt_advert) :=
  [("2005", []); ("2006", [tt_row 8000 false; tt_row 6000 true]);
   ("2007", []); ("2008", [tt_row 9000 true; tt_row 7000 true]);
   ("2009", []); ("2010", []); ("2011", [])].

(** The [results] of a file with adverts for 2009 only, all of them of an
    outlier type. *)
Definition ford_results : list (string * list ford_advert) :=
  [("2002", []); ("2003", []); ("2004", []);
   ("2009", [ford_row 9000 true; ford_row 7000 true]);
   ("2010", []); ("2011", []); ("2012", [])].

(** ** Vocabulary of the proof that the rounding is exact

    The mantissa of [100.0], and the second half of the Standard Library's
    [binary_round_aux]: the normalisation of a mantissa that has been
    rounded. *)
Definition m100 : Z := 7036874417766400.

Definition finish_round (sx : bool) (m' e : Z) : spec_float :=
  let '(mrs'', e'') := shr_fexp prec emax m' e loc_Exact in
  match shr_m mrs'' with
  | Z0 => S754_zero sx
  | Zpos m => if e'' <=? emax - prec then S754_finite sx m e''
              else S754_infinity sx
  | Zneg _ => S754_nan
  end.

(** ** Checks of the embedding on concrete values *)

Example normalize_key_Ford : normalize_key "  Ford " = "ford".
Proof. reflexivity. Qed.

Example str_of_int_examples :
  str_of_int 2014 = "2014" /\ str_of_int 0 = "0" /\ str_of_int (-7) = "-7".
Proof. repeat split. Qed.

Example int_of_str_examples :
  int_of_str " 2018 " = Some 2018 /\ int_of_str "-12" = Some (-12) /\
  int_of_str "1_000" = Some 1000 /\ int_of_str "02012" = Some 2012 /\
  int_of_str "20x8" = None /\ int_of_str "" = None /\
  int_of_str "1__0" = None /\ int_of_str "+ 1" = None /\
  int_of_str (String (ascii_of_nat 11) "2018") = Some 2018 /\
  int_of_str (String (ascii_of_nat 31) "2018") = None /\
  strip (String (ascii_of_nat 31) "2018") = "2018".
Proof. repeat split. Qed.

Example round_examples :
  (x <- truediv_100 (JInt 6430) ;; py_round x) = Ok 64 /\
  (x <- truediv_100 (JInt 6450) ;; py_round x) = Ok 64 /\
  (x <- truediv_100 (JInt 6550) ;; py_round x) = Ok 66 /\
  (x <- truediv_100 (JInt (-6451)) ;; py_round x) = Ok (-65) /\
  (x <- truediv_100 (JInt 49) ;; py_round x) = Ok 0.
Proof. repeat split. Qed.

(** The binary64 computation agrees with the exact rounding on a range of
    integer prices and on some larger ones. *)
Example rounding_range :
  forallb rounds_to_nearest_hundred
    (map (fun k => Z.of_nat k - 200) (seq 0 1000)) = true /\
  forallb rounds_to_nearest_hundred
    [6430; 6450; 6550; 12345; 99950; 100050; 123456789] = true.
Proof. split; vm_compute; reflexivity. Qed.

Example scenario_exact :
  update_prices (scenario (focus_stats [("2014", avg 6430)])) =
  ({| cars_json := JList [focus (JInt 6400)];
      market_stats_json := focus_stats [("2014", avg 6430)] |},
   Ok (1%nat, 0%nat)).
Proof. vm_compute. reflexivity. Qed.

Example scenario_unknown_make :
  update_prices (scenario (JDict [("audi", JDict [])])) =
  (scenario (JDict [("audi", JDict [])]), Ok (0%nat, 1%nat)).
Proof. vm_compute. reflexivity. Qed.

Example scenario_three_cars :
  update_prices three_cars =
  ({| cars_json := JList [focus (JInt 6400); focus (JInt 6400); kia];
      market_stats_json := focus_stats [("2014", avg 6430)] |},
   Ok (1%nat, 1%nat)).
Proof. vm_compute. reflexivity. Qed.

(** ** The error monad *)

Lemma bind_Ok {A B : Type} (r : result A) (k : A -> result B) (b : B) :
  bind r k = Ok b -> exists a, r = Ok a /\ k a = Ok b.
Proof. destruct r as [a|e]; simpl; [eauto | discriminate]. Qed.

Lemma bind_Raise {A B : Type} (r : result A) (k : A -> result B) (e : exn) :
  r = Raise e -> bind r k = Raise e.
Proof. intros ->. reflexivity. Qed.

(** Splits a hypothesis [bind r k = Ok b] into its two steps. *)
Ltac inv_bind H :=
  let a := fresh "a" in
  let Ha := fresh "Hstep" in
  apply bind_Ok in H; destruct H as (a & Ha & H); simpl in H.

(** ** Dictionaries *)

Lemma lookup_setitem_eq (k : string) (v : json) (d : list (string * json)) :
  lookup k (setitem k v d) = Some v.
Proof.
  induction d as [|[k' v'] d IH]; simpl.
  - now rewrite String.eqb_refl.
  - destruct (String.eqb k k') eqn:E; simpl; rewrite E; auto.
Qed.

Lemma lookup_setitem_ne (k k' : string) (v : json) (d : list (string * json)) :
  k' <> k -> lookup k' (setitem k v d) = lookup k' d.
Proof.
  intros Hne. induction d as [|[k1 v1] d IH]; simpl.
  - destruct (String.eqb_spec k' k); [contradiction | reflexivity].
  - destruct (String.eqb_spec k k1) as [->|Hk]; simpl.
    + destruct (String.eqb_spec k' k1); [contradiction | reflexivity].
    + now rewrite IH.
Qed.

Lemma keys_setitem (k : string) (v : json) (d : list (string * json)) :
  lookup k d <> None -> keys (setitem k v d) = keys d.
Proof.
  unfold keys. induction d as [|[k1 v1] d IH]; simpl; intros H.
  - contradiction.
  - destruct (String.eqb k k1); simpl; [reflexivity | now rewrite IH].
Qed.

Lemma existsb_keys (k : string) (d : list (string * json)) :
  existsb (String.eqb k) (keys d) =
  match lookup k d with Some _ => true | None => false end.
Proof.
  unfold keys. induction d as [|[k1 v1] d IH]; simpl; [reflexivity|].
  destruct (String.eqb k k1); simpl; auto.
Qed.

Lemma lookup_In_keys (k : string) (d : list (string * json)) :
  In k (keys d) -> exists v, lookup k d = Some v.
Proof.
  unfold keys. induction d as [|[k1 v1] d IH]; simpl; [contradiction|].
  intros [->|H].
  - rewrite String.eqb_refl. eauto.
  - destruct (String.eqb k k1); eauto.
Qed.

Lemma getitem_Ok (o : json) (k : string) (v : json) :
  getitem o k = Ok v -> exists d, o = JDict d /\ lookup k d = Some v.
Proof.
  destruct o; simpl; try discriminate.
  destruct (lookup k d) eqn:E; [|discriminate].
  intros [= ->]. eauto.
Qed.

Lemma getitem_truthy (o : json) (k : string) (v : json) :
  getitem o k = Ok v -> truthy o = true.
Proof.
  intros H. apply getitem_Ok in H. destruct H as (d & -> & H).
  destruct d; [discriminate | reflexivity].
Qed.

(** ** Numbers *)

(** What compares equal to an [int] is a number. *)
Lemma ne_int_false_number (n : Z) (v : json) :
  ne_int n v = false -> is_number v.
Proof. unfold is_number. destruct v; simpl; congruence. Qed.

Lemma ne_int_refl (n : Z) : ne_int n (JInt n) = false.
Proof. simpl. now rewrite Z.eqb_refl. Qed.

Lemma ne_int_JInt (n z : Z) : ne_int n (JInt z) = false -> z = n.
Proof.
  simpl. destruct (Z.eqb_spec n z); [auto | discriminate].
Qed.

Lemma py_gt_numbers (a b : json) :
  is_number a -> is_number b -> exists r, py_gt a b = Ok r.
Proof.
  unfold is_number, py_gt. intros Ha Hb.
  destruct (as_number a); [|contradiction].
  destruct (as_number b); [|contradiction]. eauto.
Qed.

Lemma py_gt_Ok (a b : json) (r : bool) :
  py_gt a b = Ok r -> is_number a /\ is_number b.
Proof.
  unfold is_number, py_gt.
  destruct (as_number a); [|discriminate].
  destruct (as_number b); [|discriminate].
  split; discriminate.
Qed.

(** ** The body of the loop *)

Lemma getitem_priced (car : json) (n : Z) (b : json) (k : string) :
  getitem car "basicPrice" = Ok b -> k <> "basicPrice" ->
  getitem (priced car n b) k = getitem car k.
Proof.
  intros Hb Hk. apply getitem_Ok in Hb. destruct Hb as (d & -> & Hb).
  unfold priced. destruct (ne_int n b); [|reflexivity].
  simpl. now rewrite lookup_setitem_ne.
Qed.

Lemma getitem_priced_basic (car : json) (n : Z) (b : json) :
  getitem car "basicPrice" = Ok b ->
  getitem (priced car n b) "basicPrice" =
  Ok (if ne_int n b then JInt n else b).
Proof.
  intros Hb. pose proof Hb as Hb'.
  apply getitem_Ok in Hb'. destruct Hb' as (d & -> & Hd).
  unfold priced. destruct (ne_int n b); [|exact Hb].
  simpl. now rewrite lookup_setitem_eq.
Qed.

(** The left operand of the comparison with [originalListPrice] is a
    number: the price just stored, or the old value that compared equal to
    it. *)
Lemma sanity_left_number (n : Z) (b : json) :
  is_number (if ne_int n b then JInt n else b).
Proof.
  destruct (ne_int n b) eqn:E.
  - unfold is_number. simpl. discriminate.
  - now apply ne_int_false_number with n.
Qed.

Lemma priced_same (car : json) (n : Z) (b : json) :
  getitem car "basicPrice" = Ok b ->
  same_but_basicPrice car (priced car n b).
Proof.
  intros Hb. apply getitem_Ok in Hb. destruct Hb as (d & -> & Hb).
  unfold priced. destruct (ne_int n b); [|now left].
  right. exists d, (setitem "basicPrice" (JInt n) d).
  repeat split.
  - apply keys_setitem. congruence.
  - intros k Hk. now apply lookup_setitem_ne.
Qed.

Lemma apply_price_found (car found_data : json) (u : nat)
    (a : json) (n : Z) (b o : json) :
  getitem found_data "avgPrice" = Ok a ->
  new_price_of a = Ok n ->
  getitem car "basicPrice" = Ok b ->
  getitem car "originalListPrice" = Ok o ->
  is_number o ->
  apply_price car found_data u =
  Ok (priced car n b, if ne_int n b then S u else u).
Proof.
  intros Ha Hn Hb Ho Hnum. unfold apply_price.
  rewrite Ha; simpl. rewrite Hn; simpl. rewrite Hb; simpl.
  assert (Hstep :
    (if ne_int n b
     then car' <- store car "basicPrice" (JInt n) ;; Ok (car', S u)
     else Ok (car, u)) =
    Ok (priced car n b, if ne_int n b then S u else u)).
  { unfold priced. destruct (ne_int n b); [|reflexivity].
    apply getitem_Ok in Hb. destruct Hb as (d & -> & _). reflexivity. }
  rewrite Hstep; simpl.
  rewrite (getitem_priced_basic car n b Hb); simpl.
  rewrite (getitem_priced car n b "originalListPrice" Hb), Ho
    by discriminate; simpl.
  destruct (py_gt_numbers _ o (sanity_left_number n b) Hnum) as [r Hr].
  now rewrite Hr.
Qed.

Lemma apply_price_Ok (car found_data : json) (u : nat) (car1 : json)
    (u1 : nat) :
  apply_price car found_data u = Ok (car1, u1) ->
  exists a n b o,
    getitem found_data "avgPrice" = Ok a /\
    new_price_of a = Ok n /\
    getitem car "basicPrice" = Ok b /\
    getitem car "originalListPrice" = Ok o /\
    is_number o /\
    car1 = priced car n b /\
    u1 = (if ne_int n b then S u else u).
Proof.
  unfold apply_price. intros H.
  inv_bind H. inv_bind H. inv_bind H. inv_bind H.
  destruct a2 as [car' u']. inv_bind H. inv_bind H. inv_bind H.
  injection H as <- <-.
  assert (Hc : car' = priced car a0 a1 /\
               u' = if ne_int a0 a1 then S u else u).
  { unfold priced. destruct (ne_int a0 a1).
    - inv_bind Hstep2. injection Hstep2 as <- <-.
      destruct car; try discriminate. simpl in Hstep6.
      injection Hstep6 as <-. auto.
    - injection Hstep2 as <- <-. auto. }
  destruct Hc as [-> ->].
  rewrite (getitem_priced car a0 a1 "originalListPrice" Hstep1) in Hstep4
    by discriminate.
  apply py_gt_Ok in Hstep5. destruct Hstep5 as [_ Hnum].
  exists a, a0, a1, a3. repeat split; assumption.
Qed.

Lemma update_car_missing (stats car : json) (u m : nat)
    (mk md fu : string) (t : Z) (fd : json) :
  lookup_key car = Ok (mk, md, fu, t) ->
  find_data stats mk md fu t = Ok fd ->
  truthy fd = false ->
  update_car stats car u m = Ok (car, u, S m).
Proof.
  intros Hk Hf Ht. unfold update_car.
  rewrite Hk; simpl. rewrite Hf; simpl. now rewrite Ht.
Qed.

Lemma update_car_found (stats car : json) (u m : nat)
    (mk md fu : string) (t : Z) (fd a : json) (n : Z) (b o : json) :
  lookup_key car = Ok (mk, md, fu, t) ->
  find_data stats mk md fu t = Ok fd ->
  getitem fd "avgPrice" = Ok a ->
  new_price_of a = Ok n ->
  getitem car "basicPrice" = Ok b ->
  getitem car "originalListPrice" = Ok o ->
  is_number o ->
  update_car stats car u m =
  Ok (priced car n b, if ne_int n b then S u else u, m).
Proof.
  intros Hk Hf Ha Hn Hb Ho Hnum. unfold update_car.
  rewrite Hk; simpl. rewrite Hf; simpl.
  rewrite (getitem_truthy _ _ _ Ha).
  now rewrite (apply_price_found car fd u a n b o).
Qed.

(** Every way the body can end without raising. *)
Lemma update_car_Ok (stats car : json) (u m : nat) (car' : json)
    (u' m' : nat) :
  update_car stats car u m = Ok (car', u', m') ->
  exists mk md fu t fd,
    lookup_key car = Ok (mk, md, fu, t) /\
    find_data stats mk md fu t = Ok fd /\
    ((truthy fd = false /\ car' = car /\ u' = u /\ m' = S m) \/
     (truthy fd = true /\ m' = m /\
      exists a n b o,
        getitem fd "avgPrice" = Ok a /\
        new_price_of a = Ok n /\
        getitem car "basicPrice" = Ok b /\
        getitem car "originalListPrice" = Ok o /\
        is_number o /\
        car' = priced car n b /\
        u' = (if ne_int n b then S u else u))).
Proof.
  unfold update_car. intros H.
  inv_bind H. destruct a as [[[mk md] fu] t]. inv_bind H.
  exists mk, md, fu, t, a. split; [assumption|]. split; [assumption|].
  destruct (truthy a) eqn:Ht.
  - right. inv_bind H. destruct a0 as [car1 u1].
    injection H as <- <- <-.
    apply apply_price_Ok in Hstep1.
    destruct Hstep1 as (a' & n & b & o & H1 & H2 & H3 & H4 & H5 & H6 & H7).
    split; [reflexivity|]. split; [reflexivity|].
    exists a', n, b, o. repeat split; assumption.
  - left. injection H as <- <- <-. auto.
Qed.

Lemma lookup_key_priced (car : json) (n : Z) (b : json) :
  getitem car "basicPrice" = Ok b ->
  lookup_key (priced car n b) = lookup_key car.
Proof.
  intros Hb. unfold lookup_key.
  now rewrite !(getitem_priced car n b _ Hb) by discriminate.
Qed.

(** The counters only count: the record the body returns and the amounts
    it adds do not depend on their values. *)
Lemma update_car_counters (stats car : json) (u m : nat) (car' : json)
    (u' m' : nat) :
  update_car stats car u m = Ok (car', u', m') ->
  exists du dm,
    (u' = du + u /\ m' = dm + m)%nat /\
    forall u2 m2,
      update_car stats car u2 m2 = Ok (car', (du + u2)%nat, (dm + m2)%nat).
Proof.
  intros H. apply update_car_Ok in H.
  destruct H as (mk & md & fu & t & fd & Hk & Hf & [H|H]).
  - destruct H as (Ht & -> & -> & ->). exists 0%nat, 1%nat.
    split; [auto|]. intros u2 m2.
    now apply update_car_missing with mk md fu t fd.
  - destruct H as (Ht & -> & a & n & b & o & Ha & Hn & Hb & Ho & Hnum & -> & ->).
    exists (if ne_int n b then 1%nat else 0%nat), 0%nat.
    split; [destruct (ne_int n b); auto|]. intros u2 m2.
    rewrite (update_car_found stats car u2 m2 mk md fu t fd a n b o)
      by assumption.
    destruct (ne_int n b); reflexivity.
Qed.

(** Running the body again on the record it returned changes nothing and
    counts the record as missing exactly when it was missing before. *)
Lemma update_car_again (stats car : json) (u m : nat) (car' : json)
    (u' m' : nat) :
  update_car stats car u m = Ok (car', u', m') ->
  exists dm,
    m' = (dm + m)%nat /\
    forall u2 m2, update_car stats car' u2 m2 = Ok (car', u2, (dm + m2)%nat).
Proof.
  intros H. apply update_car_Ok in H.
  destruct H as (mk & md & fu & t & fd & Hk & Hf & [H|H]).
  - destruct H as (Ht & -> & -> & ->). exists 1%nat.
    split; [auto|]. intros u2 m2.
    now apply update_car_missing with mk md fu t fd.
  - destruct H as (Ht & -> & a & n & b & o & Ha & Hn & Hb & Ho & Hnum & -> & ->).
    exists 0%nat. split; [auto|]. intros u2 m2.
    pose proof (getitem_priced_basic car n b Hb) as Hb'.
    rewrite (update_car_found stats (priced car n b) u2 m2 mk md fu t fd a n
               (if ne_int n b then JInt n else b) o); try assumption.
    + assert (Hsame : ne_int n (if ne_int n b then JInt n else b) = false).
      { destruct (ne_int n b) eqn:E; [apply ne_int_refl | exact E]. }
      rewrite Hsame. unfold priced at 1. now rewrite Hsame.
    + now rewrite lookup_key_priced.
    + now rewrite getitem_priced by (assumption || discriminate).
Qed.

(** ** The loop *)

Lemma update_loop_nth (stats : json) (cars : list json) :
  forall (u m : nat) (cars' : list json) (u' m' : nat),
    update_loop stats cars u m = Ok (cars', u', m') ->
    List.length cars' = List.length cars /\
    forall (i : nat) (car : json),
      nth_error cars i = Some car ->
      exists car' u1 m1 u2 m2,
        nth_error cars' i = Some car' /\
        update_car stats car u1 m1 = Ok (car', u2, m2).
Proof.
  induction cars as [|c cars IH]; simpl; intros u m cars' u' m' H.
  - injection H as <- <- <-. split; [reflexivity|].
    intros [|i] car; discriminate.
  - inv_bind H. destruct a as [[c1 u1] m1]. inv_bind H.
    destruct a as [[rest1 u2] m2]. injection H as <- <- <-.
    destruct (IH _ _ _ _ _ Hstep0) as [Hlen Hnth].
    split; [simpl; now rewrite Hlen|].
    intros [|i] car Hi; simpl in *.
    + injection Hi as <-. exists c1, u, m, u1, m1. auto.
    + now apply Hnth.
Qed.

Lemma update_loop_Forall2 (stats : json) (P : json -> json -> Prop) :
  (forall car u m car' u' m',
      update_car stats car u m = Ok (car', u', m') -> P car car') ->
  forall (cars : list json) (u m : nat) (cars' : list json) (u' m' : nat),
    update_loop stats cars u m = Ok (cars', u', m') ->
    Forall2 P cars cars'.
Proof.
  intros HP. induction cars as [|c cars IH]; simpl; intros u m cars' u' m' H.
  - injection H as <- <- <-. constructor.
  - inv_bind H. destruct a as [[c1 u1] m1]. inv_bind H.
    destruct a as [[rest1 u2] m2]. injection H as <- <- <-.
    constructor; eauto.
Qed.

(** One record on which the body raises ends the loop with an exception. *)
Lemma update_loop_raises (stats car : json) (cars : list json) :
  In car cars ->
  (forall u m, exists e, update_car stats car u m = Raise e) ->
  forall u m, exists e, update_loop stats cars u m = Raise e.
Proof.
  intros Hin Hcar. induction cars as [|c cars IH]; [contradiction|].
  intros u m. simpl.
  destruct Hin as [->|Hin].
  - destruct (Hcar u m) as [e He]. rewrite He. simpl. eauto.
  - destruct (update_car stats c u m) as [[[c1 u1] m1]|e]; simpl; [|eauto].
    destruct (IH Hin u1 m1) as [e He]. rewrite He. simpl. eauto.
Qed.

Lemma update_loop_again (stats : json) (cars : list json) :
  forall (u m : nat) (cars' : list json) (u' m' : nat),
    update_loop stats cars u m = Ok (cars', u', m') ->
    exists dm,
      m' = (dm + m)%nat /\
      forall u2 m2,
        update_loop stats cars' u2 m2 = Ok (cars', u2, (dm + m2)%nat).
Proof.
  induction cars as [|c cars IH]; simpl; intros u m cars' u' m' H.
  - injection H as <- <- <-. exists 0%nat. split; [reflexivity|].
    reflexivity.
  - inv_bind H. destruct a as [[c1 u1] m1]. inv_bind H.
    destruct a as [[rest1 u2] m2]. injection H as <- <- <-.
    destruct (update_car_again _ _ _ _ _ _ _ Hstep) as (d1 & -> & H1).
    destruct (IH _ _ _ _ _ Hstep0) as (d2 & -> & H2).
    exists (d2 + d1)%nat. split; [lia|]. intros u3 m3. simpl.
    rewrite H1. simpl. rewrite H2. simpl.
    now rewrite Nat.add_assoc.
Qed.

(** The body raises on anything that is not a dict. *)
Lemma update_car_not_dict (stats car : json) (u m : nat) :
  (forall d, car <> JDict d) -> update_car stats car u m = Raise TypeError.
Proof.
  intros H. destruct car; try reflexivity. now destruct (H d).
Qed.

(** ** The run *)

Lemma update_prices_Ok (fs fs' : files) (u m : nat) :
  update_prices fs = (fs', Ok (u, m)) ->
  market_stats_json fs' = market_stats_json fs /\
  run_loop (market_stats_json fs) (cars_json fs) = Ok (cars_json fs', u, m).
Proof.
  unfold update_prices.
  destruct (run_loop _ _) as [[[c u1] m1]|e]; [|discriminate].
  intros [= <- <- <-]. auto.
Qed.

Lemma run_loop_list (stats : json) (l : list json) (c : json) (u m : nat) :
  run_loop stats (JList l) = Ok (c, u, m) ->
  exists l', c = JList l' /\ update_loop stats l 0%nat 0%nat = Ok (l', u, m).
Proof.
  simpl. intros H. inv_bind H. destruct a as [[l1 u1] m1].
  injection H as <- <- <-. eauto.
Qed.

(** A catalog that is not a list is written back as it was read, and only
    when it has nothing to visit. *)
Lemma run_loop_not_list (stats cars c : json) (u m : nat) :
  (forall l, cars <> JList l) ->
  run_loop stats cars = Ok (c, u, m) ->
  c = cars /\ u = 0%nat /\ m = 0%nat.
Proof.
  intros Hl H.
  assert (Hitems : forall items,
             Forall (fun v => forall d, v <> JDict d) items ->
             forall r, update_loop stats items 0%nat 0%nat = Ok r ->
                       r = ([], 0%nat, 0%nat)).
  { intros items Hall r Hr. destruct Hall as [|v items Hv _].
    - simpl in Hr. now injection Hr as <-.
    - simpl in Hr. now rewrite update_car_not_dict in Hr by assumption. }
  destruct cars; try discriminate.
  - simpl in H. inv_bind H. destruct a as [[l1 u1] m1].
    injection H as <- <- <-.
    apply Hitems in Hstep; [now injection Hstep as _ <- <-|].
    clear. induction s; constructor; [discriminate | assumption].
  - now destruct (Hl l).
  - simpl in H. inv_bind H. destruct a as [[l1 u1] m1].
    injection H as <- <- <-.
    apply Hitems in Hstep; [now injection Hstep as _ <- <-|].
    clear. induction d; constructor; [discriminate | assumption].
Qed.

(** ** All-digit keys *)

Lemma is_digit_not_sign (c : ascii) :
  is_digit c = true -> Ascii.eqb c "-" = false /\ Ascii.eqb c "+" = false.
Proof.
  intros H. split.
  - destruct (Ascii.eqb_spec c "-") as [->|]; [discriminate | reflexivity].
  - destruct (Ascii.eqb_spec c "+") as [->|]; [discriminate | reflexivity].
Qed.

Lemma is_digit_not_int_space (c : ascii) :
  is_digit c = true -> is_int_space c = false.
Proof.
  unfold is_digit, is_int_space. intros H.
  apply andb_true_iff in H. destruct H as [H1 H2].
  apply N.leb_le in H1. apply N.leb_le in H2.
  apply orb_false_iff; split.
  - apply andb_false_iff; right. apply N.leb_gt. lia.
  - apply N.eqb_neq. lia.
Qed.

Lemma int_rstrip_digits (s : string) :
  all_digits s = true -> int_rstrip s = s.
Proof.
  induction s as [|c s IH]; simpl; [reflexivity|].
  intros H. apply andb_true_iff in H. destruct H as [Hc Hs].
  rewrite (IH Hs). destruct s; [|reflexivity].
  now rewrite (is_digit_not_int_space c Hc).
Qed.

Lemma int_strip_digits (s : string) :
  all_digits s = true -> int_rstrip (int_lstrip s) = s.
Proof.
  intros H.
  assert (Hl : int_lstrip s = s).
  { destruct s as [|c s]; simpl; [reflexivity|].
    simpl in H. apply andb_true_iff in H. destruct H as [Hc _].
    now rewrite (is_digit_not_int_space c Hc). }
  rewrite Hl. now apply int_rstrip_digits.
Qed.

Lemma int_digits_all (s : string) :
  all_digits s = true ->
  forall acc prev,
    s <> EmptyString \/ prev = true ->
    exists n, int_digits s acc prev = Some n.
Proof.
  induction s as [|c s IH]; simpl; intros H acc prev Hne.
  - destruct Hne as [Hne| ->]; [contradiction | eauto].
  - apply andb_true_iff in H. destruct H as [Hc Hs]. rewrite Hc.
    apply IH; auto.
Qed.

(** [int] never raises on a key that passed [isdigit]. *)
Lemma int_of_str_isdigit (y : string) :
  isdigit y = true -> int_of_str y = Some (year_of_key y).
Proof.
  intros H. unfold year_of_key.
  assert (Hs : exists n, int_of_str y = Some n).
  { unfold int_of_str. destruct y as [|c y]; [discriminate|].
    unfold isdigit in H. rewrite (int_strip_digits _ H).
    pose proof H as H'. simpl in H'. apply andb_true_iff in H'.
    destruct H' as [Hc _].
    destruct (is_digit_not_sign c Hc) as [-> ->].
    apply int_digits_all; [assumption | left; discriminate]. }
  destruct Hs as [n ->]. reflexivity.
Qed.

Lemma avail_years_digit_years (ks : list string) :
  avail_years ks = Ok (digit_years ks).
Proof.
  unfold digit_years. induction ks as [|y ks IH]; simpl; [reflexivity|].
  destruct (isdigit y) eqn:E; [|assumption].
  rewrite (int_of_str_isdigit y E). simpl. now rewrite IH.
Qed.

(** ** The choice of the closest year *)

Lemma min_by_first (key : Z -> Z) (l : list Z) :
  forall x,
  exists l1 l2,
    x :: l = l1 ++ min_by key x l :: l2 /\
    (forall y, In y l1 -> key (min_by key x l) < key y) /\
    (forall y, In y l2 -> key (min_by key x l) <= key y).
Proof.
  induction l as [|y l IH]; intros x; simpl.
  - exists [], []. repeat split; simpl; intros; contradiction.
  - destruct (Z.ltb_spec (key y) (key x)) as [Hlt|Hge].
    + destruct (IH y) as (l1 & l2 & Heq & H1 & H2).
      exists (x :: l1), l2. simpl. rewrite <- Heq.
      split; [reflexivity|]. split; [|assumption].
      intros z [<-|Hz]; [|now apply H1].
      destruct l1 as [|y' l1]; simpl in Heq.
      * injection Heq as Hy _. rewrite <- Hy. assumption.
      * injection Heq as <- _. specialize (H1 y (or_introl eq_refl)). lia.
    + destruct (IH x) as (l1 & l2 & Heq & H1 & H2).
      destruct l1 as [|x' l1]; simpl in Heq.
      * injection Heq as Hx <-. exists [], (y :: l).
        simpl. rewrite <- Hx. split; [reflexivity|].
        split; [intros; contradiction|].
        intros z [<-|Hz]; [assumption|]. rewrite Hx. now apply H2.
      * injection Heq as <- Hl. exists (x :: y :: l1), l2.
        simpl. rewrite <- Hl. split; [reflexivity|].
        split; [|assumption].
        intros z [<-|[<-|Hz]].
        -- apply H1. now left.
        -- specialize (H1 x (or_introl eq_refl)). lia.
        -- apply H1. now right.
Qed.

Lemma min_by_first_nearest (t y : Z) (ys : list Z) :
  first_nearest t (min_by (distance t) y ys) (y :: ys).
Proof. apply min_by_first. Qed.

Lemma first_nearest_In (t x : Z) (l : list Z) :
  first_nearest t x l -> In x l.
Proof.
  intros (l1 & l2 & -> & _). apply in_or_app. right. now left.
Qed.

Lemma first_nearest_least (t x : Z) (l : list Z) :
  first_nearest t x l -> forall y, In y l -> distance t x <= distance t y.
Proof.
  intros (l1 & l2 & -> & H1 & H2) y Hy.
  apply in_app_or in Hy. destruct Hy as [Hy|[<-|Hy]].
  - specialize (H1 y Hy). lia.
  - lia.
  - now apply H2.
Qed.

(** ** The lookup in the statistics table *)

Lemma fuel_level_path (stats : json) (mk md fu : string)
    (d : list (string * json)) :
  fuel_level stats mk md fu = Some d ->
  has_path stats mk md fu = Ok true /\
  forall t, find_data stats mk md fu t = lookup_year (JDict d) t.
Proof.
  unfold fuel_level, find_data, has_path. intros H.
  destruct stats as [| | | | | |s]; try discriminate.
  destruct (lookup mk s) as [[| | | | | |s1]|] eqn:E1; try discriminate.
  destruct (lookup md s1) as [[| | | | | |s2]|] eqn:E2; try discriminate.
  destruct (lookup fu s2) as [[| | | | | |s3]|] eqn:E3; try discriminate.
  injection H as ->. simpl.
  repeat (progress (rewrite ?existsb_keys, ?E1, ?E2, ?E3; simpl)).
  auto.
Qed.

Lemma lookup_year_exact (d : list (string * json)) (t : Z) (r : json) :
  lookup (str_of_int t) d = Some r -> lookup_year (JDict d) t = Ok r.
Proof.
  intros H. unfold lookup_year. simpl.
  rewrite existsb_keys, H. simpl. reflexivity.
Qed.

Lemma lookup_year_fallback (d : list (string * json)) (t : Z) :
  lookup (str_of_int t) d = None ->
  lookup_year (JDict d) t =
  match digit_years (keys d) with
  | [] => Ok JNull
  | y :: ys => getitem (JDict d) (str_of_int (min_by (distance t) y ys))
  end.
Proof.
  intros H. unfold lookup_year. simpl.
  rewrite existsb_keys, H. simpl.
  now rewrite avail_years_digit_years.
Qed.

(** ** Vehicles *)

Lemma vehicle_lookup_key (car : json) (make model fuel : string) (year : Z) :
  vehicle car make model fuel year ->
  lookup_key car =
  Ok (normalize_key make, normalize_key model, normalize_key fuel,
      target_year year).
Proof.
  intros (Hmk & Hmd & Hfu & v & Hv & Hy). unfold lookup_key.
  rewrite Hmk; simpl. rewrite Hmd; simpl. rewrite Hfu; simpl.
  rewrite Hv; simpl. rewrite Hy; simpl. reflexivity.
Qed.

(** What the body returns for a vehicle when a record with a price is
    found for it. *)
Lemma update_car_priced (stats car : json) (u m : nat) (car' : json)
    (u' m' : nat) (mk md fu : string) (t : Z) (fd a : json) (n : Z) :
  lookup_key car = Ok (mk, md, fu, t) ->
  find_data stats mk md fu t = Ok fd ->
  getitem fd "avgPrice" = Ok a ->
  new_price_of a = Ok n ->
  update_car stats car u m = Ok (car', u', m') ->
  exists b,
    getitem car "basicPrice" = Ok b /\
    car' = priced car n b /\
    u' = (if ne_int n b then S u else u) /\ m' = m.
Proof.
  intros Hk Hf Ha Hn H. apply update_car_Ok in H.
  destruct H as (mk' & md' & fu' & t' & fd' & Hk' & Hf' & H).
  rewrite Hk in Hk'. injection Hk' as <- <- <- <-.
  rewrite Hf in Hf'. injection Hf' as <-.
  destruct H as [(Ht & _)|(_ & -> & a' & n' & b & o & Ha' & Hn' & Hb & _ & _ & -> & ->)].
  - rewrite (getitem_truthy _ _ _ Ha) in Ht. discriminate.
  - rewrite Ha in Ha'. injection Ha' as <-.
    rewrite Hn in Hn'. injection Hn' as <-.
    exists b. auto.
Qed.

Lemma run_nth (fs fs' : files) (u m : nat) (cars : list json) (i : nat)
    (car : json) :
  update_prices fs = (fs', Ok (u, m)) ->
  cars_json fs = JList cars ->
  nth_error cars i = Some car ->
  exists cars' car' u1 m1 u2 m2,
    cars_json fs' = JList cars' /\
    nth_error cars' i = Some car' /\
    update_car (market_stats_json fs) car u1 m1 = Ok (car', u2, m2).
Proof.
  intros H Hc Hi. apply update_prices_Ok in H. destruct H as [_ H].
  rewrite Hc in H. apply run_loop_list in H. destruct H as (l' & Hl & H).
  apply update_loop_nth in H. destruct H as [_ H].
  destruct (H i car Hi) as (car' & u1 & m1 & u2 & m2 & Hi' & Hcar).
  exists l', car', u1, m1, u2, m2. auto.
Qed.

(** A record on which the body raises aborts the run: the exception
    leaves [update_prices] and no file is written. *)
Lemma run_aborts (fs : files) (cars : list json) (car : json) :
  cars_json fs = JList cars ->
  In car cars ->
  (forall u m, exists e, update_car (market_stats_json fs) car u m = Raise e) ->
  exists e, update_prices fs = (fs, Raise e).
Proof.
  intros Hc Hin Hcar. unfold update_prices. rewrite Hc. simpl.
  destruct (update_loop_raises _ _ _ Hin Hcar 0%nat 0%nat) as [e He].
  rewrite He. simpl. eauto.
Qed.

(** The price in the catalog written by a run that ends normally, for a
    vehicle for which a record with a price is found. *)
Lemma run_priced (fs fs' : files) (u m : nat) (cars : list json) (i : nat)
    (car : json) (mk md fu : string) (t : Z) (fd a : json) (n : Z) :
  update_prices fs = (fs', Ok (u, m)) ->
  cars_json fs = JList cars ->
  nth_error cars i = Some car ->
  lookup_key car = Ok (mk, md, fu, t) ->
  find_data (market_stats_json fs) mk md fu t = Ok fd ->
  getitem fd "avgPrice" = Ok a ->
  new_price_of a = Ok n ->
  exists cars' car' b,
    cars_json fs' = JList cars' /\
    nth_error cars' i = Some car' /\
    getitem car' "basicPrice" = Ok b /\
    ne_int n b = false /\
    (forall z, getitem car "basicPrice" = Ok (JInt z) -> b = JInt n).
Proof.
  intros Hrun Hc Hi Hk Hf Ha Hn.
  destruct (run_nth _ _ _ _ _ _ _ Hrun Hc Hi)
    as (cars' & car' & u1 & m1 & u2 & m2 & Hc' & Hi' & Hcar).
  destruct (update_car_priced _ _ _ _ _ _ _ _ _ _ _ _ _ _ Hk Hf Ha Hn Hcar)
    as (b & Hb & -> & _ & _).
  exists cars', (priced car n b), (if ne_int n b then JInt n else b).
  split; [assumption|]. split; [assumption|].
  split; [now apply getitem_priced_basic|].
  split.
  - destruct (ne_int n b) eqn:E; [apply ne_int_refl | exact E].
  - intros z Hz. rewrite Hb in Hz. injection Hz as ->.
    destruct (ne_int n (JInt z)) eqn:E; [reflexivity|].
    now rewrite (ne_int_JInt n z E).
Qed.

(** ** The rounding of an integer average

    [int(round(a / 100.0)) * 100] for an integer [a] below [2^53] in
    absolute value: the conversion to a float is exact, the quotient by
    [100.0] is within half a unit in the last place of [a / 100], which is
    less than a hundredth, and rounding it to an integer gives what
    rounding [a / 100] gives. *)

Lemma digits2_size (p : positive) : digits2_pos p = Pos.size p.
Proof. induction p; simpl; congruence. Qed.

Lemma Zdigits_bounds (p : positive) (n : Z) :
  2 ^ (n - 1) <= Zpos p < 2 ^ n -> Zpos (digits2_pos p) = n.
Proof.
  intros [Hlo Hhi]. rewrite digits2_size.
  pose proof (Pos.size_gt p) as Hgt. pose proof (Pos.size_le p) as Hle.
  apply Pos2Z.pos_lt_pos in Hgt. apply Pos2Z.pos_le_pos in Hle.
  rewrite Pos2Z.inj_pow in Hgt, Hle.
  set (s := Zpos (Pos.size p)) in *.
  assert (Hs : 0 < s) by (unfold s; lia).
  assert (Hn : 0 < n).
  { destruct (Z.ltb_spec 0 n); [assumption|]. exfalso.
    destruct (Z.eq_dec n 0) as [->|Hn0]; [simpl in Hhi; lia|].
    rewrite (Z.pow_neg_r 2 n) in Hhi by lia. lia. }
  destruct (Z.lt_trichotomy s n) as [H|[H|H]]; [|assumption|].
  - assert (2 ^ s <= 2 ^ (n - 1)) by (apply Z.pow_le_mono_r; lia). lia.
  - assert (2 ^ (n + 1) <= 2 ^ s) by (apply Z.pow_le_mono_r; lia).
    replace (n + 1) with (Z.succ n) in H0 by lia.
    rewrite Z.pow_succ_r in H0 by lia. lia.
Qed.

Lemma fexp_normal (n e : Z) :
  53 <= n -> -1074 <= e -> fexp prec emax (n + e) - e = n - 53.
Proof. unfold fexp, SpecFloat.emin, prec, emax. lia. Qed.

Lemma record_of_loc (m : Z) (l : location) :
  shr_m (shr_record_of_loc m l) = m /\
  loc_of_shr_record (shr_record_of_loc m l) = l.
Proof. destruct l as [|[]]; split; reflexivity. Qed.

(** The second normalisation of [binary_round_aux] on a rounded mantissa. *)
Lemma round_aux_stage2 (sx : bool) (m' e : Z) :
  2 ^ 52 <= m' <= 2 ^ 53 -> -1074 <= e <= 900 ->
  exists m t,
    (let '(mrs'', e'') := shr_fexp prec emax m' e loc_Exact in
     match shr_m mrs'' with
     | Z0 => S754_zero sx
     | Zpos m => if e'' <=? emax - prec then S754_finite sx m e''
                 else S754_infinity sx
     | Zneg _ => S754_nan
     end) = S754_finite sx m (e + t) /\
    (t = 0 \/ t = 1) /\ Zpos m * 2 ^ t = m' /\
    2 ^ 52 <= Zpos m < 2 ^ 53.
Proof.
  intros Hm He. unfold shr_fexp.
  destruct m' as [|p|p]; try lia.
  destruct (Z.eq_dec (Zpos p) (2 ^ 53)) as [Heq|Hne].
  - assert (Hp : p = 9007199254740992%positive) by lia. subst p.
    change (Zdigits2 (Zpos 9007199254740992)) with 54.
    rewrite (fexp_normal 54 e) by lia.
    exists 4503599627370496%positive, 1.
    change (shr (shr_record_of_loc (Zpos 9007199254740992) loc_Exact) e
              (54 - 53))
      with ({| shr_m := Zpos 4503599627370496; shr_r := false;
               shr_s := false |}, e + 1).
    cbv beta iota. cbn [shr_m].
    destruct (Z.leb_spec (e + 1) (emax - prec)) as [_|H];
      [|unfold emax, prec in H; lia].
    split; [reflexivity|]. split; [now right|].
    split; [reflexivity|]. split; [discriminate | reflexivity].
  - unfold Zdigits2. rewrite (Zdigits_bounds p 53) by lia.
    rewrite (fexp_normal 53 e) by lia.
    exists p, 0. simpl.
    destruct (Z.leb_spec e 971) as [_|H]; [|lia].
    rewrite Z.add_0_r. split; [reflexivity|]. split; [now left|].
    split; lia.
Qed.

Lemma binary_round_aux_stages (sx : bool) (mx ex : Z) (lx : location) :
  binary_round_aux prec emax sx mx ex lx =
  finish_round sx
    (round_nearest_even (shr_m (fst (shr_fexp prec emax mx ex lx)))
       (loc_of_shr_record (fst (shr_fexp prec emax mx ex lx))))
    (snd (shr_fexp prec emax mx ex lx)).
Proof.
  unfold binary_round_aux, finish_round.
  destruct (shr_fexp prec emax mx ex lx) as [mrs' e']. reflexivity.
Qed.

Lemma shr_fexp_53 (p : positive) (e : Z) (l : location) :
  2 ^ 52 <= Zpos p < 2 ^ 53 -> -1074 <= e ->
  shr_fexp prec emax (Zpos p) e l = (shr_record_of_loc (Zpos p) l, e).
Proof.
  intros Hp He. unfold shr_fexp, Zdigits2.
  rewrite (Zdigits_bounds p 53) by lia.
  rewrite (fexp_normal 53 e) by lia. reflexivity.
Qed.

Lemma shr_fexp_54 (p : positive) (e : Z) (l : location) :
  2 ^ 53 <= Zpos p < 2 ^ 54 -> -1074 <= e ->
  shr_fexp prec emax (Zpos p) e l =
  (shr_1 (shr_record_of_loc (Zpos p) l), e + 1).
Proof.
  intros Hp He. unfold shr_fexp, Zdigits2.
  rewrite (Zdigits_bounds p 54) by lia.
  rewrite (fexp_normal 54 e) by lia. reflexivity.
Qed.

(** Rounding the quotient [N / m100] with the location of the remainder:
    a float whose mantissa is within half a unit of [N / m100]. *)
Lemma round_aux_div (sx : bool) (N ex : Z) :
  2 ^ 52 <= N / m100 < 2 ^ 53 + 2 ^ 52 -> -1074 <= ex <= 899 ->
  exists m t,
    binary_round_aux prec emax sx (N / m100) ex
      (new_location m100 (N mod m100)) =
    S754_finite sx m (ex + t) /\
    (t = 0 \/ t = 1) /\
    Z.abs (m100 * 2 ^ t * Zpos m - N) <= m100 / 2 * 2 ^ t.
Proof.
  intros Hq He.
  pose proof (Z.div_mod N m100 ltac:(discriminate)) as Hdiv.
  pose proof (Z.mod_pos_bound N m100 ltac:(reflexivity)) as Hr.
  set (q := N / m100) in *. set (r := N mod m100) in *.
  clearbody q r.
  rewrite binary_round_aux_stages.
  unfold new_location. change (Z.even m100) with true. cbv iota.
  unfold new_location_even.
  assert (Hm100 : m100 = 7036874417766400) by reflexivity.
  assert (Hm1002 : m100 / 2 = 3518437208883200) by reflexivity.
  assert (H52 : 2 ^ 52 = 4503599627370496) by reflexivity.
  assert (H53 : 2 ^ 53 = 9007199254740992) by reflexivity.
  rewrite H52, H53 in Hq.
  destruct q as [|p|p]; try lia.
  destruct (Z.ltb_spec (Zpos p) (2 ^ 53)) as [Hlt|Hge].
  - rewrite shr_fexp_53 by lia. cbn [fst snd].
    destruct (record_of_loc (Zpos p)
                (if r =? 0 then loc_Exact
                 else loc_Inexact (2 * r ?= m100))) as [-> ->].
    assert (Hm' : exists m',
               round_nearest_even (Zpos p)
                 (if r =? 0 then loc_Exact else loc_Inexact (2 * r ?= m100))
               = m' /\ (m' = Zpos p \/ m' = Zpos p + 1) /\
               Z.abs (m100 * m' - N) <= m100 / 2).
    { destruct (Z.eqb_spec r 0) as [Hr0|Hr0].
      - exists (Zpos p). split; [reflexivity|]. split; [now left|]. lia.
      - destruct (Z.compare_spec (2 * r) m100) as [Hc|Hc|Hc];
          unfold round_nearest_even.
        + destruct (Z.even (Zpos p)).
          * exists (Zpos p). split; [reflexivity|]. split; [now left|]. lia.
          * exists (Zpos p + 1). split; [reflexivity|].
            split; [now right|]. lia.
        + exists (Zpos p). split; [reflexivity|]. split; [now left|]. lia.
        + exists (Zpos p + 1). split; [reflexivity|].
          split; [now right|]. lia. }
    destruct Hm' as (m' & -> & Hm' & Herr).
    destruct (round_aux_stage2 sx m' ex) as (m & t & Hfin & Ht & Hmt & Hm);
      [lia | lia |].
    exists m, t. split; [exact Hfin|]. split; [exact Ht|].
    destruct Ht as [-> | ->].
    + change (2 ^ 0) with 1 in *. lia.
    + change (2 ^ 1) with 2 in *. lia.
  - rewrite shr_fexp_54 by lia. cbn [fst snd].
    rewrite H53 in Hge.
    assert (Hm' : exists m',
               round_nearest_even
                 (shr_m (shr_1 (shr_record_of_loc (Zpos p)
                    (if r =? 0 then loc_Exact
                     else loc_Inexact (2 * r ?= m100)))))
                 (loc_of_shr_record (shr_1 (shr_record_of_loc (Zpos p)
                    (if r =? 0 then loc_Exact
                     else loc_Inexact (2 * r ?= m100))))) = m' /\
               4503599627370496 <= m' < 9007199254740992 /\
               Z.abs (m100 * 2 * m' - N) <= m100).
    { destruct (Z.eqb_spec r 0) as [Hr0|Hr0].
      - destruct p as [p|p|]; cbn -[Z.mul Z.add Z.sub Z.abs m100 Z.even];
          try lia.
        + destruct (Z.even (Zpos p)).
          * exists (Zpos p). split; [reflexivity|]. lia.
          * exists (Zpos p + 1). split; [reflexivity|]. lia.
        + exists (Zpos p). split; [reflexivity|]. lia.
      - destruct (Z.compare_spec (2 * r) m100) as [Hc|Hc|Hc];
          destruct p as [p|p|];
          cbn -[Z.mul Z.add Z.sub Z.abs m100 Z.even]; try lia;
          try (destruct (Z.even (Zpos p)));
          try (exists (Zpos p); split; [reflexivity|]; lia);
          try (exists (Zpos p + 1); split; [reflexivity|]; lia). }
    destruct Hm' as (m' & -> & Hm' & Herr).
    destruct (round_aux_stage2 sx m' (ex + 1))
      as (m & t & Hfin & Ht & Hmt & Hm); [lia | lia |].
    assert (t = 0) as ->.
    { destruct Ht as [->| ->]; [reflexivity|].
      change (2 ^ 1) with 2 in Hmt. lia. }
    exists m, 1. rewrite Z.add_0_r in Hfin.
    change (2 ^ 0) with 1 in Hmt. change (2 ^ 1) with 2.
    split; [exact Hfin|]. split; [now right|]. lia.
Qed.

Lemma div_eucl_div_mod (a b : Z) : Z.div_eucl a b = (a / b, a mod b).
Proof. unfold Z.div, Z.modulo. now destruct (Z.div_eucl a b). Qed.

(** The quotient of a normal float by [100.0]. *)
Lemma SFdiv_100 (s : bool) (m1 : positive) (e1 : Z) :
  2 ^ 52 <= Zpos m1 < 2 ^ 53 -> -1000 <= e1 <= 900 ->
  exists m t,
    SFdiv prec emax (S754_finite s m1 e1) float_100 =
    S754_finite s m (e1 - 7 + t) /\
    (t = 0 \/ t = 1) /\
    Z.abs (100 * 2 ^ t * Zpos m - 128 * Zpos m1) <= 50 * 2 ^ t.
Proof.
  intros Hm He. unfold SFdiv, float_100, SFdiv_core_binary.
  unfold Zdigits2. rewrite (Zdigits_bounds m1 53) by lia.
  change (Zpos (digits2_pos 7036874417766400)) with 53.
  replace (Z.min (fexp prec emax (53 + e1 - (53 + -46))) (e1 - -46))
    with (e1 - 7)
    by (unfold fexp, SpecFloat.emin, prec, emax; lia).
  replace (e1 - -46 - (e1 - 7)) with 53 by lia.
  cbv iota beta. rewrite div_eucl_div_mod, xorb_false_r.
  rewrite Z.shiftl_mul_pow2 by lia.
  change (Zpos 7036874417766400) with m100.
  assert (H52 : 2 ^ 52 = 4503599627370496) by reflexivity.
  assert (H53 : 2 ^ 53 = 9007199254740992) by reflexivity.
  assert (Hm100 : m100 = 7036874417766400) by reflexivity.
  assert (Hm1002 : m100 / 2 = 3518437208883200) by reflexivity.
  set (N := Zpos m1 * 2 ^ 53) in *.
  assert (HN : N = Zpos m1 * 9007199254740992) by (unfold N; now rewrite H53).
  clearbody N.
  assert (Hq : 2 ^ 52 <= N / m100 < 2 ^ 53 + 2 ^ 52).
  { pose proof (Z.div_mod N m100 ltac:(discriminate)) as Hdiv.
    pose proof (Z.mod_pos_bound N m100 ltac:(reflexivity)) as Hr.
    rewrite H52, H53 in *. lia. }
  destruct (round_aux_div s N (e1 - 7) Hq ltac:(lia))
    as (m & t & Hfin & Ht & Herr).
  exists m, t. split; [exact Hfin|]. split; [exact Ht|].
  rewrite H52, H53 in *.
  destruct Ht as [-> | ->].
  - change (2 ^ 0) with 1 in *. lia.
  - change (2 ^ 1) with 2 in *. lia.
Qed.

Lemma iter_xO_pow (k p : positive) :
  Zpos (Pos.iter xO p k) = Zpos p * 2 ^ Zpos k.
Proof.
  induction k as [|k IH] using Pos.peano_ind.
  - simpl. lia.
  - rewrite Pos.iter_succ, Pos2Z.inj_succ, Z.pow_succ_r by lia.
    rewrite Pos2Z.inj_xO, IH. lia.
Qed.

Lemma size_bounds (p : positive) :
  2 ^ (Zpos (digits2_pos p) - 1) <= Zpos p < 2 ^ Zpos (digits2_pos p).
Proof.
  rewrite digits2_size.
  pose proof (Pos.size_gt p) as Hgt. pose proof (Pos.size_le p) as Hle.
  apply Pos2Z.pos_lt_pos in Hgt. apply Pos2Z.pos_le_pos in Hle.
  rewrite Pos2Z.inj_pow in Hgt, Hle.
  set (s := Zpos (Pos.size p)) in *.
  assert (Hs : 0 < s) by (unfold s; lia).
  split; [|exact Hgt].
  replace s with (Z.succ (s - 1)) in Hle by lia.
  rewrite Z.pow_succ_r in Hle by lia. lia.
Qed.

(** The float of an integer below [2^53] in absolute value is exact: a
    53-bit mantissa and an exponent that scales it back. *)
Lemma binary_round_exact (s : bool) (p : positive) :
  Zpos p < 2 ^ 53 ->
  exists m1 e1,
    binary_round prec emax s p 0 = S754_finite s m1 e1 /\
    -52 <= e1 <= 0 /\
    Zpos m1 = Zpos p * 2 ^ (- e1) /\
    2 ^ 52 <= Zpos m1 < 2 ^ 53.
Proof.
  intros Hp. pose proof (size_bounds p) as Hd.
  set (d := Zpos (digits2_pos p)) in *.
  assert (Hd1 : 1 <= d) by (unfold d; lia).
  assert (Hd53 : d <= 53).
  { destruct (Z.leb_spec d 53); [assumption|]. exfalso.
    assert (2 ^ 53 <= 2 ^ (d - 1)) by (apply Z.pow_le_mono_r; lia). lia. }
  unfold binary_round. fold d.
  replace (fexp prec emax (d + 0)) with (d - 53)
    by (unfold fexp, SpecFloat.emin, prec, emax; lia).
  unfold shl_align. rewrite Z.sub_0_r.
  assert (Hfin : forall m1 e1,
             2 ^ 52 <= Zpos m1 < 2 ^ 53 -> -52 <= e1 <= 0 ->
             binary_round_aux prec emax s (Zpos m1) e1 loc_Exact =
             S754_finite s m1 e1).
  { intros m1 e1 Hm1 He1. rewrite binary_round_aux_stages.
    rewrite shr_fexp_53 by lia. cbn [fst snd shr_record_of_loc shr_m].
    cbn [loc_of_shr_record round_nearest_even].
    destruct (round_aux_stage2 s (Zpos m1) e1)
      as (m & t & Hf & Ht & Hmt & Hm); [lia | lia |].
    unfold finish_round. rewrite Hf.
    assert (t = 0) as ->.
    { destruct Ht as [->| ->]; [reflexivity|].
      change (2 ^ 1) with 2 in Hmt. lia. }
    change (2 ^ 0) with 1 in Hmt. rewrite Z.add_0_r.
    f_equal. lia. }
  destruct (d - 53) as [|k|k] eqn:Ek; try lia.
  - exists p, 0. split; [apply Hfin; [|lia]|].
    + assert (d = 53) as Hd' by lia. rewrite Hd' in Hd. lia.
    + split; [lia|]. split; [simpl; lia|].
      assert (d = 53) as Hd' by lia. rewrite Hd' in Hd. lia.
  - assert (Hk : Zpos k = 53 - d) by lia.
    assert (Hm1 : Zpos (Pos.iter xO p k) = Zpos p * 2 ^ (53 - d)).
    { rewrite iter_xO_pow. now rewrite Hk. }
    assert (Hpow : 2 ^ (d - 1) * 2 ^ (53 - d) = 2 ^ 52).
    { rewrite <- Z.pow_add_r by lia. f_equal. lia. }
    assert (Hpow' : 2 ^ d * 2 ^ (53 - d) = 2 ^ 53).
    { rewrite <- Z.pow_add_r by lia. f_equal. lia. }
    assert (Hpos : 0 < 2 ^ (53 - d)) by (apply Z.pow_pos_nonneg; lia).
    assert (Hb : 2 ^ 52 <= Zpos (Pos.iter xO p k) < 2 ^ 53).
    { rewrite Hm1, <- Hpow, <- Hpow'. split.
      - apply Z.mul_le_mono_nonneg_r; lia.
      - apply Z.mul_lt_mono_pos_r; lia. }
    exists (Pos.iter xO p k), (Zneg k).
    split; [apply Hfin; [exact Hb | lia]|].
    split; [lia|]. split; [|exact Hb].
    rewrite Hm1. do 2 f_equal. lia.
Qed.

(** Rounding a mantissa that is within half a hundredth of [a / 100]. *)
Lemma round_half_even_hundredth (a m e : Z) :
  e <= -6 ->
  Z.abs (100 * m - 2 ^ (- e) * a) <= 50 ->
  round_half_even m e * 100 = nearest_hundred a.
Proof.
  intros He Herr. unfold round_half_even, nearest_hundred.
  destruct (Z.leb_spec 0 e) as [|_]; [lia|].
  assert (HD : exists D', 2 ^ (- e) = 2 * D' /\ 32 <= D').
  { exists (2 ^ (- e - 1)). split.
    - rewrite <- Z.pow_succ_r by lia. f_equal. lia.
    - change 32 with (2 ^ 5). apply Z.pow_le_mono_r; lia. }
  destruct HD as (D' & HD & HD').
  set (D := 2 ^ (- e)) in *. clearbody D.
  pose proof (Z.div_mod m D ltac:(lia)) as Hm.
  pose proof (Z.mod_pos_bound m D ltac:(lia)) as Hrr.
  pose proof (Z.div_mod a 100 ltac:(lia)) as Ha.
  pose proof (Z.mod_pos_bound a 100 ltac:(lia)) as Hrho.
  set (qq := m / D) in *. set (rr := m mod D) in *.
  set (k := a / 100) in *. set (rho := a mod 100) in *.
  clearbody qq rr k rho.
  assert (Hqk : qq = k) by nia.
  subst qq.
  assert (Hrel : 100 * rr - D * rho = 100 * m - D * a) by nia.
  destruct (Z.compare_spec rho 50) as [Hc|Hc|Hc].
  - subst rho.
    assert (H0 : 100 * m - D * a = 0).
    { assert (Hmul : 100 * m - D * a = 100 * (rr - D')) by nia. lia. }
    assert (H2 : 2 * rr = D) by nia.
    rewrite H2, Z.compare_refl. destruct (Z.even k); lia.
  - assert (H2 : 2 * rr < D) by nia.
    apply Z.compare_lt_iff in H2. rewrite H2. lia.
  - assert (H2 : D < 2 * rr) by nia.
    apply Z.compare_gt_iff in H2. rewrite H2. lia.
Qed.

Lemma nearest_hundred_opp (a : Z) : nearest_hundred (- a) = - nearest_hundred a.
Proof.
  unfold nearest_hundred.
  pose proof (Z.div_mod a 100 ltac:(lia)) as Ha.
  pose proof (Z.mod_pos_bound a 100 ltac:(lia)) as Hr.
  pose proof (Z.div_mod (- a) 100 ltac:(lia)) as Ha'.
  pose proof (Z.mod_pos_bound (- a) 100 ltac:(lia)) as Hr'.
  set (q := a / 100) in *. set (r := a mod 100) in *.
  set (q' := - a / 100) in *. set (r' := - a mod 100) in *.
  clearbody q r q' r'.
  destruct (Z.compare_spec r 50) as [Hc|Hc|Hc];
    destruct (Z.compare_spec r' 50) as [Hc'|Hc'|Hc']; try lia.
  - assert (q' = - q - 1) by lia. subst q'.
    replace (- q - 1) with (- (q + 1)) by lia.
    rewrite Z.even_opp, Z.even_add. change (Z.even 1) with false.
    destruct (Z.even q); cbn [Bool.eqb]; lia.
Qed.

(** The price computed from an integer average below [2^53] in absolute
    value is the nearest multiple of 100, the even one at a tie. *)
Lemma new_price_of_int (a : Z) :
  - 2 ^ 53 < a < 2 ^ 53 ->
  new_price_of (JInt a) = Ok (nearest_hundred a).
Proof.
  intros Ha.
  assert (Hcase : forall (s : bool) (p : positive),
             Zpos p < 2 ^ 53 ->
             exists m1 e1 m e,
               binary_round prec emax s p 0 = S754_finite s m1 e1 /\
               SFdiv prec emax (S754_finite s m1 e1) float_100 =
                 S754_finite s m e /\
               round_half_even (Zpos m) e * 100 = nearest_hundred (Zpos p)).
  { intros s p Hp.
    destruct (binary_round_exact s p Hp) as (m1 & e1 & H1 & He1 & Hm1 & Hb).
    destruct (SFdiv_100 s m1 e1 Hb ltac:(lia)) as (m & t & H2 & Ht & Herr).
    exists m1, e1, m, (e1 - 7 + t).
    split; [exact H1|]. split; [exact H2|].
    apply round_half_even_hundredth; [destruct Ht; lia|].
    assert (Hpow : 2 ^ (- (e1 - 7 + t)) * 2 ^ t = 128 * 2 ^ (- e1)).
    { rewrite <- Z.pow_add_r by lia.
      replace (- (e1 - 7 + t) + t) with (7 + - e1) by lia.
      rewrite Z.pow_add_r by lia. reflexivity. }
    assert (Hscale :
              2 ^ t * (100 * Zpos m - 2 ^ (- (e1 - 7 + t)) * Zpos p) =
              100 * 2 ^ t * Zpos m - 128 * Zpos m1).
    { rewrite Hm1.
      replace (128 * (Zpos p * 2 ^ (- e1)))
        with (2 ^ (- (e1 - 7 + t)) * 2 ^ t * Zpos p)
        by (rewrite Hpow; ring).
      ring. }
    rewrite <- Hscale in Herr.
    destruct Ht as [-> | ->].
    - change (2 ^ 0) with 1 in Herr. lia.
    - change (2 ^ 1) with 2 in Herr. lia. }
  unfold new_price_of, truediv_100, float_of_int, binary_normalize.
  destruct a as [|p|p].
  - reflexivity.
  - destruct (Hcase false p) as (m1 & e1 & m & e & -> & H2 & H3); [lia|].
    cbn [bind]. rewrite H2. cbn [bind py_round cond_Zopp]. now rewrite H3.
  - destruct (Hcase true p) as (m1 & e1 & m & e & -> & H2 & H3); [lia|].
    cbn [bind]. rewrite H2. cbn [bind py_round cond_Zopp].
    rewrite Z.mul_opp_l, H3.
    change (Zneg p) with (- Zpos p). now rewrite nearest_hundred_opp.
Qed.

(** ** The claims *)




(** C2, as the code has it.  The tie between two equally distant years goes
    to the one whose key comes first in the mapping, so the same table in
    another key order gives another price: with ["2016"] before ["2012"]
    the later year 2016 is chosen for the target 2014.  A key with a
    leading zero is read as a year but looked up under the year's decimal
    writing, which is not a key: the run ends with [KeyError]. *)
Lemma tie_follows_key_order :
  lookup "2014" later_first = None /\
  digit_years (keys later_first) = [2016; 2012] /\
  distance 2014 2016 = distance 2014 2012 /\
  find_data (focus_stats later_first) "ford" "focus" "petrol" 2014 =
    Ok (avg 5000) /\
  find_data (focus_stats earlier_first) "ford" "focus" "petrol" 2014 =
    Ok (avg 7000) /\
  update_prices (scenario (focus_stats later_first)) =
    ({| cars_json := JList [focus (JInt 5000)];
        market_stats_json := focus_stats later_first |}, Ok (0%nat, 0%nat)) /\
  update_prices (scenario (focus_stats earlier_first)) =
    ({| cars_json := JList [focus (JInt 7000)];
        market_stats_json := focus_stats earlier_first |}, Ok (1%nat, 0%nat)) /\
  update_prices (scenario (focus_stats leading_zero)) =
    (scenario (focus_stats leading_zero), Raise (KeyError "2012")).
Proof. repeat split; vm_compute; reflexivity. Qed.

Lemma digit_years_nonempty (ks : list string) :
  existsb isdigit ks = true -> digit_years ks <> [].
Proof.
  unfold digit_years. induction ks as [|k ks IH]; simpl; [discriminate|].
  destruct (isdigit k); simpl; [discriminate | assumption].
Qed.

Lemma digit_years_key (ks : list string) (y : Z) :
  In y (digit_years ks) ->
  exists k, In k ks /\ isdigit k = true /\ year_of_key k = y.
Proof.
  unfold digit_years. intros H. apply in_map_iff in H.
  destruct H as (k & Hy & Hk). apply filter_In in Hk.
  destruct Hk as [Hk Hd]. eauto.
Qed.

(** C2, amended.  For a vehicle whose fuel-type mapping exists, lacks the
    exact target key and has at least one all-digit key, all of them
    written without a leading zero: the record used is the one of the year
    nearest to the target by absolute difference, and among equally near
    years the one whose key comes first in the key order of the mapping;
    after a run that ends normally the [basicPrice] of the vehicle equals
    the rounded [avgPrice] of that record. *)
Theorem nearest_year_price
    (fs : files) (cars : list json) (i : nat) (car : json)
    (make model fuel : string) (year : Z) (d : list (string * json)) :
  cars_json fs = JList cars ->
  nth_error cars i = Some car ->
  vehicle car make model fuel year ->
  fuel_level (market_stats_json fs) (normalize_key make)
    (normalize_key model) (normalize_key fuel) = Some d ->
  lookup (str_of_int (target_year year)) d = None ->
  existsb isdigit (keys d) = true ->
  canonical_keys (keys d) ->
  exists closest record,
    first_nearest (target_year year) closest (digit_years (keys d)) /\
    (forall y, In y (digit_years (keys d)) ->
               Z.abs (closest - target_year year) <=
               Z.abs (y - target_year year)) /\
    lookup (str_of_int closest) d = Some record /\
    find_data (market_stats_json fs) (normalize_key make)
      (normalize_key model) (normalize_key fuel) (target_year year) =
    Ok record /\
    forall fs' u m avg_price n,
      update_prices fs = (fs', Ok (u, m)) ->
      getitem record "avgPrice" = Ok avg_price ->
      new_price_of avg_price = Ok n ->
      exists cars' car' b,
        cars_json fs' = JList cars' /\
        nth_error cars' i = Some car' /\
        getitem car' "basicPrice" = Ok b /\
        ne_int n b = false /\
        (forall z, getitem car "basicPrice" = Ok (JInt z) -> b = JInt n).
Proof.
  intros Hc Hi Hv Hd Hnone Hdig Hcan.
  apply fuel_level_path in Hd. destruct Hd as [_ Hd].
  pose proof (Hd (target_year year)) as Hf.
  rewrite (lookup_year_fallback d _ Hnone) in Hf.
  apply digit_years_nonempty in Hdig.
  destruct (digit_years (keys d)) as [|y ys] eqn:Ey; [contradiction|].
  set (closest := min_by (distance (target_year year)) y ys) in *.
  pose proof (min_by_first_nearest (target_year year) y ys) as Hfirst.
  fold closest in Hfirst.
  pose proof (first_nearest_In _ _ _ Hfirst) as Hin.
  rewrite <- Ey in Hin. apply digit_years_key in Hin.
  destruct Hin as (k & Hk & Hkd & Hky).
  pose proof (Hcan k Hk Hkd) as Hstr. rewrite Hky in Hstr.
  destruct (lookup_In_keys k d Hk) as [record Hrec].
  rewrite <- Hstr in Hrec.
  assert (Hfd : find_data (market_stats_json fs) (normalize_key make)
                  (normalize_key model) (normalize_key fuel)
                  (target_year year) = Ok record).
  { rewrite Hf. simpl. now rewrite Hrec. }
  exists closest, record.
  split; [assumption|].
  split; [exact (first_nearest_least _ _ _ Hfirst)|].
  split; [assumption|]. split; [assumption|].
  intros fs' u m a n Hrun Ha Hn.
  exact (run_priced _ _ _ _ _ _ _ _ _ _ _ _ _ _ Hrun Hc Hi
           (vehicle_lookup_key _ _ _ _ _ Hv) Hfd Ha Hn).
Qed.

Lemma nearest_year_price_witness :
  exists closest record,
    first_nearest (target_year 2018) closest (digit_years (keys later_first)) /\
    (forall y, In y (digit_years (keys later_first)) ->
               Z.abs (closest - target_year 2018) <=
               Z.abs (y - target_year 2018)) /\
    lookup (str_of_int closest) later_first = Some record /\
    find_data (market_stats_json (scenario (focus_stats later_first)))
      (normalize_key "Ford") (normalize_key "Focus") (normalize_key "Petrol")
      (target_year 2018) = Ok record /\
    forall fs' u m avg_price n,
      update_prices (scenario (focus_stats later_first)) = (fs', Ok (u, m)) ->
      getitem record "avgPrice" = Ok avg_price ->
      new_price_of avg_price = Ok n ->
      exists cars' car' b,
        cars_json fs' = JList cars' /\
        nth_error cars' 0 = Some car' /\
        getitem car' "basicPrice" = Ok b /\
        ne_int n b = false /\
        (forall z, getitem (focus (JInt 5000)) "basicPrice" = Ok (JInt z) ->
                   b = JInt n).
Proof.
  apply (nearest_year_price (scenario (focus_stats later_first))
           [focus (JInt 5000)] 0%nat (focus (JInt 5000))
           "Ford" "Focus" "Petrol" 2018 later_first).
  - reflexivity.
  - reflexivity.
  - repeat split. exists (JInt 2018). split; reflexivity.
  - reflexivity.
  - reflexivity.
  - reflexivity.
  - intros k Hk Hd. simpl in Hk.
    destruct Hk as [<-|[<-|[]]]; reflexivity.
Defined.

(** Follows a chain of [bind]s, one case for each step that may raise. *)
Ltac raise_along :=
  repeat first
    [ solve [eauto]
    | match goal with
      | |- exists e, bind (Raise ?x) _ = Raise e => exists x; reflexivity
      | |- exists e, bind ?r _ = Raise e =>
          let E := fresh "E" in destruct r eqn:E; cbn [bind]
      end ].

Lemma update_car_key_raises (stats car : json) :
  (exists e, lookup_key car = Raise e) ->
  forall u m, exists e, update_car stats car u m = Raise e.
Proof.
  intros [e He] u m. exists e. unfold update_car. now rewrite He.
Qed.

(** C3.  A catalog with a vehicle whose [yearOfManufacture] is a string
    that [int] does not accept makes the run end with an exception; no
    record is skipped or given another year, and both files are as they
    were before the run. *)
Theorem malformed_year_aborts
    (fs : files) (cars : list json) (car : json) (s : string) :
  cars_json fs = JList cars ->
  In car cars ->
  getitem car "yearOfManufacture" = Ok (JStr s) ->
  int_of_str s = None ->
  exists e, update_prices fs = (fs, Raise e).
Proof.
  intros Hc Hin Hy Hs.
  apply (run_aborts fs cars car Hc Hin).
  apply update_car_key_raises.
  unfold lookup_key.
  destruct (getitem car "make") as [v1|e1]; simpl; [|eauto].
  destruct (normalize v1) as [s1|e1]; simpl; [|eauto].
  destruct (getitem car "model") as [v2|e2]; simpl; [|eauto].
  destruct (normalize v2) as [s2|e2]; simpl; [|eauto].
  destruct (getitem car "fuelType") as [v3|e3]; simpl; [|eauto].
  destruct (normalize v3) as [s3|e3]; simpl; [|eauto].
  rewrite Hy. simpl. rewrite Hs. simpl. eauto.
Qed.

Lemma malformed_year_aborts_witness :
  exists e,
    update_prices {| cars_json := JList [focus (JInt 5000); focus_bad_year];
                     market_stats_json := focus_stats [("2014", avg 6430)] |} =
    ({| cars_json := JList [focus (JInt 5000); focus_bad_year];
        market_stats_json := focus_stats [("2014", avg 6430)] |}, Raise e).
Proof.
  apply (malformed_year_aborts
           {| cars_json := JList [focus (JInt 5000); focus_bad_year];
              market_stats_json := focus_stats [("2014", avg 6430)] |}
           [focus (JInt 5000); focus_bad_year] focus_bad_year "20x8").
  - reflexivity.
  - simpl. right. left. reflexivity.
  - reflexivity.
  - reflexivity.
Defined.

(** C4, as the code has it.  A record without [originalListPrice] for which
    no statistics are found does not stop the run: it is counted as
    missing and the catalog is written. *)
Lemma missing_list_price_not_fatal :
  getitem focus_no_list_price "originalListPrice" =
    Raise (KeyError "originalListPrice") /\
  update_prices {| cars_json := JList [focus_no_list_price];
                   market_stats_json := JDict [] |} =
  ({| cars_json := JList [focus_no_list_price];
      market_stats_json := JDict [] |}, Ok (0%nat, 1%nat)).
Proof. split; vm_compute; reflexivity. Qed.

Lemma lookup_key_missing (d : list (string * json)) (k : string) :
  In k always_read -> lookup k d = None ->
  exists e, lookup_key (JDict d) = Raise e.
Proof.
  intros Hin Hk. unfold lookup_key. simpl in Hin.
  destruct Hin as [<-|[<-|[<-|[<-|[]]]]]; simpl; rewrite Hk; raise_along.
Qed.

Lemma lookup_key_KeyError (d : list (string * json)) (k : string) :
  In k always_read -> lookup k d = None ->
  (forall k', In k' (read_before k) -> exists s, lookup k' d = Some (JStr s)) ->
  lookup_key (JDict d) = Raise (KeyError k).
Proof.
  intros Hin Hk Hs. unfold lookup_key. simpl in Hin.
  assert (Hname : forall k', In k' (read_before k) ->
            exists s, getitem (JDict d) k' = Ok (JStr s)).
  { intros k' H1. destruct (Hs k' H1) as [s Hl].
    exists s. simpl. now rewrite Hl. }
  assert (Hget : getitem (JDict d) k = Raise (KeyError k)).
  { simpl. now rewrite Hk. }
  destruct Hin as [<-|[<-|[<-|[<-|[]]]]].
  - now rewrite Hget.
  - destruct (Hname "make") as [s1 ->]; [simpl; auto|].
    cbn [bind normalize]. now rewrite Hget.
  - destruct (Hname "make") as [s1 ->]; [simpl; auto|].
    destruct (Hname "model") as [s2 ->]; [simpl; auto|].
    cbn [bind normalize]. now rewrite Hget.
  - destruct (Hname "make") as [s1 ->]; [simpl; auto|].
    destruct (Hname "model") as [s2 ->]; [simpl; auto|].
    destruct (Hname "fuelType") as [s3 ->]; [simpl; auto|].
    cbn [bind normalize]. now rewrite Hget.
Qed.

(** C4, amended.  A record without [make], [model], [fuelType] or
    [yearOfManufacture] makes the run end with an exception and leaves the
    files as they were; when the names read before the missing field are
    strings the exception is the [KeyError] of that field, which carries
    the name of the field and nothing about the place of the record.
    [basicPrice] and [originalListPrice] are read only once a record of the
    statistics with a price is found: without one of them the body then
    raises the [KeyError] of that field, and when nothing is found the
    record is counted as missing and the run goes on. *)
Theorem missing_field_aborts :
  (forall (fs : files) (cars : list json) (d : list (string * json))
          (k : string),
      cars_json fs = JList cars ->
      In (JDict d) cars ->
      In k always_read ->
      lookup k d = None ->
      exists e, update_prices fs = (fs, Raise e)) /\
  (forall (stats : json) (d : list (string * json)) (k : string) (u m : nat),
      In k always_read ->
      lookup k d = None ->
      (forall k', In k' (read_before k) ->
                  exists s, lookup k' d = Some (JStr s)) ->
      update_car stats (JDict d) u m = Raise (KeyError k)) /\
  (forall (stats car : json) (make model fuel : string) (year : Z)
          (found_data : json) (u m : nat),
      vehicle car make model fuel year ->
      find_data stats (normalize_key make) (normalize_key model)
        (normalize_key fuel) (target_year year) = Ok found_data ->
      (truthy found_data = false ->
       update_car stats car u m = Ok (car, u, S m)) /\
      (forall avg_price n,
          getitem found_data "avgPrice" = Ok avg_price ->
          new_price_of avg_price = Ok n ->
          (getitem car "basicPrice" = Raise (KeyError "basicPrice") ->
           update_car stats car u m = Raise (KeyError "basicPrice")) /\
          (forall b,
              getitem car "basicPrice" = Ok b ->
              getitem car "originalListPrice" =
                Raise (KeyError "originalListPrice") ->
              update_car stats car u m =
                Raise (KeyError "originalListPrice")))).
Proof.
  split; [|split].
  - intros fs cars d k Hc Hin Hk Hnone.
    apply (run_aborts fs cars (JDict d) Hc Hin).
    apply update_car_key_raises. now apply lookup_key_missing with k.
  - intros stats d k u m Hk Hnone Hs. unfold update_car.
    now rewrite (lookup_key_KeyError d k Hk Hnone Hs).
  - intros stats car make model fuel year fd u m Hv Hf.
    pose proof (vehicle_lookup_key _ _ _ _ _ Hv) as Hkey.
    split.
    + intros Ht. now apply update_car_missing with (1 := Hkey) (2 := Hf).
    + intros a n Ha Hn. unfold update_car. rewrite Hkey; simpl.
      rewrite Hf; simpl. rewrite (getitem_truthy _ _ _ Ha).
      unfold apply_price. rewrite Ha; simpl. rewrite Hn; simpl.
      split.
      * intros Hb. now rewrite Hb.
      * intros b Hb Ho. rewrite Hb; simpl.
        assert (Hstep :
          (if ne_int n b
           then car' <- store car "basicPrice" (JInt n) ;; Ok (car', S u)
           else Ok (car, u)) =
          Ok (priced car n b, if ne_int n b then S u else u)).
        { unfold priced. destruct (ne_int n b); [|reflexivity].
          apply getitem_Ok in Hb. destruct Hb as (d & -> & _). reflexivity. }
        rewrite Hstep; simpl.
        rewrite (getitem_priced_basic car n b Hb); simpl.
        rewrite (getitem_priced car n b "originalListPrice" Hb), Ho
          by discriminate.
        reflexivity.
Qed.

Lemma missing_field_aborts_witness :
  update_car (focus_stats [("2014", avg 6430)]) (JDict focus_no_model)
    0%nat 0%nat = Raise (KeyError "model").
Proof.
  apply (proj1 (proj2 missing_field_aborts)
           (focus_stats [("2014", avg 6430)]) focus_no_model "model"
           0%nat 0%nat).
  - simpl. right. left. reflexivity.
  - reflexivity.
  - intros k' Hk'. simpl in Hk'.
    destruct Hk' as [<-|[]]. exists "Ford". reflexivity.
Defined.

(** C5.  When a run ends normally, a second run on the catalog it wrote,
    with the same statistics, updates nothing, counts the same records as
    missing and writes the same catalog. *)
Theorem second_run_changes_nothing (fs fs1 : files) (u m : nat) :
  update_prices fs = (fs1, Ok (u, m)) ->
  update_prices fs1 = (fs1, Ok (0%nat, m)).
Proof.
  intros H. apply update_prices_Ok in H. destruct H as [Hs H].
  destruct fs1 as [cars1 stats1]. simpl in *. subst stats1.
  unfold update_prices. simpl.
  destruct (cars_json fs) as [| | | | |l|] eqn:Ec;
    try (pose proof H as H0; apply run_loop_not_list in H0;
         [ destruct H0 as (-> & -> & ->); rewrite H; reflexivity
         | intros l0 Hl0; discriminate Hl0 ]).
  apply run_loop_list in H. destruct H as (l' & -> & H).
  apply update_loop_again in H. destruct H as (dm & -> & H).
  simpl. rewrite H. simpl. reflexivity.
Qed.

Lemma second_run_changes_nothing_witness :
  update_prices {| cars_json := JList [focus (JInt 6400)];
                   market_stats_json := focus_stats [("2014", avg 6430)] |} =
  ({| cars_json := JList [focus (JInt 6400)];
      market_stats_json := focus_stats [("2014", avg 6430)] |},
   Ok (0%nat, 0%nat)).
Proof.
  apply (second_run_changes_nothing
           (scenario (focus_stats [("2014", avg 6430)])) _ 1%nat 0%nat).
  vm_compute. reflexivity.
Defined.

(** C6.  For a vehicle for which the test
    [make in stats and model in stats[make] and fuel in stats[make][model]]
    on its normalized names is false, the body returns the record as it
    was, leaves [updated_count] and adds exactly one to [missing_count];
    in the catalog written by a run that ends normally the record is the
    one that was read. *)
Theorem no_path_is_missing
    (stats car : json) (make model fuel : string) (year : Z) :
  vehicle car make model fuel year ->
  has_path stats (normalize_key make) (normalize_key model)
    (normalize_key fuel) = Ok false ->
  (forall u m, update_car stats car u m = Ok (car, u, S m)) /\
  (forall fs fs' u m cars i,
      market_stats_json fs = stats ->
      cars_json fs = JList cars ->
      nth_error cars i = Some car ->
      update_prices fs = (fs', Ok (u, m)) ->
      exists cars',
        cars_json fs' = JList cars' /\ nth_error cars' i = Some car).
Proof.
  intros Hv Hp.
  assert (Hbody : forall u m, update_car stats car u m = Ok (car, u, S m)).
  { intros u m.
    apply update_car_missing with (1 := vehicle_lookup_key _ _ _ _ _ Hv)
                                  (fd := JNull); [|reflexivity].
    unfold find_data. now rewrite Hp. }
  split; [exact Hbody|].
  intros fs fs' u m cars i Hs Hc Hi Hrun.
  destruct (run_nth _ _ _ _ _ _ _ Hrun Hc Hi)
    as (cars' & car' & u1 & m1 & u2 & m2 & Hc' & Hi' & Hcar).
  rewrite Hs, Hbody in Hcar. injection Hcar as <- _ _.
  exists cars'. auto.
Qed.

Lemma no_path_is_missing_witness :
  (forall u m, update_car (JDict []) (focus (JInt 5000)) u m =
               Ok (focus (JInt 5000), u, S m)) /\
  (forall fs fs' u m cars i,
      market_stats_json fs = JDict [] ->
      cars_json fs = JList cars ->
      nth_error cars i = Some (focus (JInt 5000)) ->
      update_prices fs = (fs', Ok (u, m)) ->
      exists cars',
        cars_json fs' = JList cars' /\
        nth_error cars' i = Some (focus (JInt 5000))).
Proof.
  apply (no_path_is_missing (JDict []) (focus (JInt 5000))
           "Ford" "Focus" "Petrol" 2018).
  - repeat split. exists (JInt 2018). split; reflexivity.
  - reflexivity.
Defined.

Lemma update_car_same (stats car : json) (u m : nat) (car' : json)
    (u' m' : nat) :
  update_car stats car u m = Ok (car', u', m') ->
  same_but_basicPrice car car'.
Proof.
  intros H. apply update_car_Ok in H.
  destruct H as (mk & md & fu & t & fd & _ & _ & [H|H]).
  - destruct H as (_ & -> & _). now left.
  - destruct H as (_ & _ & a & n & b & o & _ & _ & Hb & _ & _ & -> & _).
    now apply priced_same.
Qed.

(** C7.  Whatever the two files hold, the run leaves the statistics as
    they were, and the catalog either as it was or as a list of the same
    length whose records are, place by place, the records read with the
    same keys in the same order and the same value under every key other
    than [basicPrice]. *)
Theorem only_basicPrice_changes (fs : files) :
  market_stats_json (fst (update_prices fs)) = market_stats_json fs /\
  (cars_json (fst (update_prices fs)) = cars_json fs \/
   exists cars cars',
     cars_json fs = JList cars /\
     cars_json (fst (update_prices fs)) = JList cars' /\
     Forall2 same_but_basicPrice cars cars').
Proof.
  destruct (update_prices fs) as [fs' [[u m]|e]] eqn:E; simpl.
  - apply update_prices_Ok in E. destruct E as [Hs H].
    split; [assumption|].
    destruct (cars_json fs) as [| | | | |l|] eqn:Ec;
      try (apply run_loop_not_list in H;
           [ destruct H as (-> & _); now left
           | intros l0 Hl0; discriminate Hl0 ]).
    apply run_loop_list in H. destruct H as (l' & -> & H).
    right. exists l, l'. repeat split.
    apply (update_loop_Forall2 (market_stats_json fs) same_but_basicPrice)
      with (2 := H).
    intros car u0 m0 car' u' m'. apply update_car_same.
  - unfold update_prices in E.
    destruct (run_loop _ _) as [[[c u] m]|e']; [discriminate|].
    injection E as <- _. auto.
Qed.

(** C8.  For a vehicle for which a record with a price is found, and whose
    [originalListPrice] is a number, the body stores the new price when it
    differs from [basicPrice] and counts the update, whatever the
    [originalListPrice]: the result does not mention it, so it is the same
    when the new price is above it. *)
Theorem list_price_check_has_no_effect
    (stats car : json) (make model fuel : string) (year : Z)
    (found_data avg_price : json) (n : Z) (basic list_price : json)
    (u m : nat) :
  vehicle car make model fuel year ->
  find_data stats (normalize_key make) (normalize_key model)
    (normalize_key fuel) (target_year year) = Ok found_data ->
  getitem found_data "avgPrice" = Ok avg_price ->
  new_price_of avg_price = Ok n ->
  getitem car "basicPrice" = Ok basic ->
  getitem car "originalListPrice" = Ok list_price ->
  is_number list_price ->
  update_car stats car u m =
    Ok (priced car n basic, if ne_int n basic then S u else u, m) /\
  getitem (priced car n basic) "basicPrice" =
    Ok (if ne_int n basic then JInt n else basic) /\
  getitem (priced car n basic) "originalListPrice" = Ok list_price.
Proof.
  intros Hv Hf Ha Hn Hb Ho Hnum.
  split; [|split].
  - exact (update_car_found stats car u m _ _ _ _ _ _ _ _ _
             (vehicle_lookup_key _ _ _ _ _ Hv) Hf Ha Hn Hb Ho Hnum).
  - now apply getitem_priced_basic.
  - rewrite getitem_priced; [assumption | assumption | discriminate].
Qed.

Lemma list_price_check_has_no_effect_witness :
  update_car (focus_stats [("2014", avg 6430)])
    (focus_listed (JInt 5000) (JInt 6000)) 0%nat 0%nat =
    Ok (priced (focus_listed (JInt 5000) (JInt 6000)) 6400 (JInt 5000),
        if ne_int 6400 (JInt 5000) then 1%nat else 0%nat, 0%nat) /\
  getitem (priced (focus_listed (JInt 5000) (JInt 6000)) 6400 (JInt 5000))
    "basicPrice" = Ok (if ne_int 6400 (JInt 5000) then JInt 6400 else JInt 5000) /\
  getitem (priced (focus_listed (JInt 5000) (JInt 6000)) 6400 (JInt 5000))
    "originalListPrice" = Ok (JInt 6000).
Proof.
  apply (list_price_check_has_no_effect
           (focus_stats [("2014", avg 6430)])
           (focus_listed (JInt 5000) (JInt 6000))
           "Ford" "Focus" "Petrol" 2018 (avg 6430) (JInt 6430) 6400
           (JInt 5000) (JInt 6000) 0%nat 0%nat).
  - repeat split. exists (JInt 2018). split; reflexivity.
  - vm_compute. reflexivity.
  - reflexivity.
  - vm_compute. reflexivity.
  - reflexivity.
  - reflexivity.
  - unfold is_number. simpl. discriminate.
Defined.

(** C9.  For a vehicle for which a record with a price is found and whose
    [basicPrice] already equals the new price, the body returns the record
    and both counters as they were; so the two counts of a run can add up
    to less than the number of vehicles, as they do for [three_cars]. *)
Theorem equal_price_is_not_counted :
  (forall (stats car : json) (make model fuel : string) (year : Z)
          (found_data avg_price : json) (n : Z) (basic list_price : json)
          (u m : nat),
      vehicle car make model fuel year ->
      find_data stats (normalize_key make) (normalize_key model)
        (normalize_key fuel) (target_year year) = Ok found_data ->
      getitem found_data "avgPrice" = Ok avg_price ->
      new_price_of avg_price = Ok n ->
      getitem car "basicPrice" = Ok basic ->
      ne_int n basic = false ->
      getitem car "originalListPrice" = Ok list_price ->
      is_number list_price ->
      update_car stats car u m = Ok (car, u, m)) /\
  (exists (fs fs' : files) (cars : list json) (u m : nat),
      cars_json fs = JList cars /\
      update_prices fs = (fs', Ok (u, m)) /\
      (u + m < List.length cars)%nat).
Proof.
  split.
  - intros stats car make model fuel year fd a n b o u m
           Hv Hf Ha Hn Hb Heq Ho Hnum.
    rewrite (update_car_found stats car u m _ _ _ _ _ _ _ _ _
               (vehicle_lookup_key _ _ _ _ _ Hv) Hf Ha Hn Hb Ho Hnum).
    unfold priced. now rewrite Heq.
  - exists three_cars,
      {| cars_json := JList [focus (JInt 6400); focus (JInt 6400); kia];
         market_stats_json := focus_stats [("2014", avg 6430)] |},
      [focus (JInt 5000); focus (JInt 6400); kia], 1%nat, 1%nat.
    split; [reflexivity|]. split; [vm_compute; reflexivity|].
    simpl. lia.
Qed.

Lemma equal_price_is_not_counted_witness :
  update_car (focus_stats [("2014", avg 6430)]) (focus (JInt 6400))
    3%nat 5%nat = Ok (focus (JInt 6400), 3%nat, 5%nat).
Proof.
  apply (proj1 equal_price_is_not_counted
           (focus_stats [("2014", avg 6430)]) (focus (JInt 6400))
           "Ford" "Focus" "Petrol" 2018 (avg 6430) (JInt 6430) 6400
           (JInt 6400) (JInt 12000) 3%nat 5%nat).
  - repeat split. exists (JInt 2018). split; reflexivity.
  - vm_compute. reflexivity.
  - reflexivity.
  - vm_compute. reflexivity.
  - reflexivity.
  - reflexivity.
  - reflexivity.
  - unfold is_number. simpl. discriminate.
Defined.

(** C10.  When the record chosen for a vehicle, under the exact key or
    under the key of the closest year, is an empty mapping, the body does
    not read [avgPrice] and does not raise: it returns the record as it
    was, leaves [updated_count] and adds one to [missing_count], as it does
    when nothing is found. *)
Theorem empty_record_is_missing
    (stats car : json) (make model fuel : string) (year : Z)
    (d : list (string * json)) (u m : nat) :
  vehicle car make model fuel year ->
  fuel_level stats (normalize_key make) (normalize_key model)
    (normalize_key fuel) = Some d ->
  lookup (str_of_int (target_year year)) d = Some (JDict []) \/
  (lookup (str_of_int (target_year year)) d = None /\
   exists y ys,
     digit_years (keys d) = y :: ys /\
     lookup (str_of_int (min_by (distance (target_year year)) y ys)) d =
       Some (JDict [])) ->
  find_data stats (normalize_key make) (normalize_key model)
    (normalize_key fuel) (target_year year) = Ok (JDict []) /\
  update_car stats car u m = Ok (car, u, S m).
Proof.
  intros Hv Hd Hrec.
  apply fuel_level_path in Hd. destruct Hd as [_ Hd].
  assert (Hf : find_data stats (normalize_key make) (normalize_key model)
                 (normalize_key fuel) (target_year year) = Ok (JDict [])).
  { rewrite Hd. destruct Hrec as [Hex|(Hnone & y & ys & Hy & Hmin)].
    - now apply lookup_year_exact.
    - rewrite (lookup_year_fallback d _ Hnone), Hy. simpl. now rewrite Hmin. }
  split; [assumption|].
  now apply update_car_missing with (1 := vehicle_lookup_key _ _ _ _ _ Hv)
                                    (2 := Hf).
Qed.

Lemma empty_record_is_missing_witness :
  find_data (focus_stats [("2016", JDict []); ("2010", avg 7000)])
    (normalize_key "Ford") (normalize_key "Focus") (normalize_key "Petrol")
    (target_year 2018) = Ok (JDict []) /\
  update_car (focus_stats [("2016", JDict []); ("2010", avg 7000)])
    (focus (JInt 5000)) 0%nat 0%nat = Ok (focus (JInt 5000), 0%nat, 1%nat).
Proof.
  apply (empty_record_is_missing
           (focus_stats [("2016", JDict []); ("2010", avg 7000)])
           (focus (JInt 5000)) "Ford" "Focus" "Petrol" 2018
           [("2016", JDict []); ("2010", avg 7000)] 0%nat 0%nat).
  - repeat split. exists (JInt 2018). split; reflexivity.
  - reflexivity.
  - right. split; [reflexivity|].
    exists 2016, [2010]. split; reflexivity.
Defined.

(** ** Further properties: [normalize_key] *)

Lemma is_space_lower (c : ascii) : is_space (lower_ascii c) = is_space c.
Proof. destruct c as [[] [] [] [] [] [] [] []]; reflexivity. Qed.

Lemma lower_ascii_idem (c : ascii) :
  lower_ascii (lower_ascii c) = lower_ascii c.
Proof. destruct c as [[] [] [] [] [] [] [] []]; reflexivity. Qed.

Lemma lower_idem (s : string) : lower (lower s) = lower s.
Proof.
  induction s as [|c s IH]; simpl; [reflexivity|].
  now rewrite lower_ascii_idem, IH.
Qed.

Lemma lower_app (s t : string) : lower (s ++ t) = (lower s ++ lower t)%string.
Proof. induction s as [|c s IH]; simpl; [reflexivity | now rewrite IH]. Qed.

Lemma is_blank_lower (s : string) : is_blank (lower s) = is_blank s.
Proof.
  induction s as [|c s IH]; simpl; [reflexivity|].
  now rewrite is_space_lower, IH.
Qed.

Lemma lstrip_lower (s : string) : lstrip (lower s) = lower (lstrip s).
Proof.
  induction s as [|c s IH]; simpl; [reflexivity|].
  rewrite is_space_lower. destruct (is_space c); [exact IH | reflexivity].
Qed.

Lemma rstrip_lower (s : string) : rstrip (lower s) = lower (rstrip s).
Proof.
  induction s as [|c s IH]; simpl; [reflexivity|].
  rewrite IH, is_space_lower.
  destruct (rstrip s); simpl; [destruct (is_space c)|]; reflexivity.
Qed.

Lemma strip_lower (s : string) : strip (lower s) = lower (strip s).
Proof. unfold strip. now rewrite lstrip_lower, rstrip_lower. Qed.

Lemma lstrip_idem (s : string) : lstrip (lstrip s) = lstrip s.
Proof.
  induction s as [|c s IH]; simpl; [reflexivity|].
  destruct (is_space c) eqn:E; [exact IH|]. simpl. now rewrite E.
Qed.

Lemma rstrip_idem (s : string) : rstrip (rstrip s) = rstrip s.
Proof.
  induction s as [|c s IH]; simpl; [reflexivity|].
  destruct (rstrip s) as [|a r] eqn:Er.
  - destruct (is_space c) eqn:E; simpl; [reflexivity | now rewrite E].
  - change (rstrip (String c (String a r)))
      with (match rstrip (String a r) with
            | EmptyString =>
                if is_space c then EmptyString else String c EmptyString
            | String a' r' => String c (String a' r')
            end).
    now rewrite IH.
Qed.

Lemma lstrip_rstrip (s : string) : lstrip (rstrip s) = rstrip (lstrip s).
Proof.
  induction s as [|c s IH]; [reflexivity|].
  change (lstrip (String c s)) with (if is_space c then lstrip s else String c s).
  change (rstrip (String c s))
    with (match rstrip s with
          | EmptyString =>
              if is_space c then EmptyString else String c EmptyString
          | String a r => String c (String a r)
          end).
  destruct (is_space c) eqn:E.
  - rewrite <- IH. destruct (rstrip s) as [|a r]; [reflexivity|].
    simpl. now rewrite E.
  - change (rstrip (String c s))
      with (match rstrip s with
            | EmptyString =>
                if is_space c then EmptyString else String c EmptyString
            | String a r => String c (String a r)
            end).
    rewrite E. destruct (rstrip s) as [|a r]; simpl; now rewrite E.
Qed.

Lemma strip_idem (s : string) : strip (strip s) = strip s.
Proof.
  unfold strip.
  now rewrite (lstrip_rstrip (lstrip s)), lstrip_idem, rstrip_idem.
Qed.

Lemma normalize_key_fixed (key : string) :
  normalize_key (normalize_key key) = normalize_key key.
Proof.
  unfold normalize_key.
  now rewrite strip_lower, strip_idem, <- strip_lower, lower_idem.
Qed.

(** X1.  Normalizing twice is normalizing once: a name that has been
    normalized is its own normal form. *)
Theorem normalize_key_idempotent (key : string) :
  normalize_key (normalize_key key) = normalize_key key.
Proof.
  unfold normalize_key.
  rewrite (strip_lower (strip (lower key))), strip_idem.
  now rewrite <- strip_lower, lower_idem.
Qed.

Lemma lstrip_blank_app (w s : string) :
  is_blank w = true -> lstrip (w ++ s) = lstrip s.
Proof.
  induction w as [|c w IH]; simpl; [reflexivity|].
  intros H. apply andb_true_iff in H. destruct H as [Hc Hw].
  rewrite Hc. now apply IH.
Qed.

Lemma rstrip_blank (w : string) : is_blank w = true -> rstrip w = EmptyString.
Proof.
  induction w as [|c w IH]; simpl; [reflexivity|].
  intros H. apply andb_true_iff in H. destruct H as [Hc Hw].
  now rewrite (IH Hw), Hc.
Qed.

Lemma rstrip_app_blank (s w : string) :
  is_blank w = true -> rstrip (s ++ w) = rstrip s.
Proof.
  intros Hw. induction s as [|c s IH]; simpl.
  - now apply rstrip_blank.
  - now rewrite IH.
Qed.

Lemma strip_blank_around (w1 s w2 : string) :
  is_blank w1 = true -> is_blank w2 = true ->
  strip (w1 ++ s ++ w2) = strip s.
Proof.
  intros H1 H2. unfold strip.
  rewrite (lstrip_blank_app w1 _ H1), <- lstrip_rstrip.
  now rewrite (rstrip_app_blank s w2 H2), lstrip_rstrip.
Qed.

(** X2.  The normal form ignores the case of ASCII letters and any white
    space around the name: two spellings with the same lower-case text,
    one of them wrapped in white space, have the same normal form. *)
Theorem normalize_key_spelling (w1 w2 s s' : string) :
  is_blank w1 = true ->
  is_blank w2 = true ->
  lower s = lower s' ->
  normalize_key (w1 ++ s ++ w2) = normalize_key s'.
Proof.
  intros H1 H2 Hs. unfold normalize_key.
  rewrite !lower_app, Hs.
  apply strip_blank_around; now rewrite is_blank_lower.
Qed.

Lemma normalize_key_spelling_witness :
  normalize_key ("  " ++ "FORD" ++ " ") = normalize_key "Ford".
Proof.
  apply (normalize_key_spelling "  " " " "FORD" "Ford"); reflexivity.
Defined.

(** ** Further properties: the lookup *)

Lemma existsb_eqb_In (k : string) (ks : list string) :
  existsb (String.eqb k) ks = true -> In k ks.
Proof.
  intros H. apply existsb_exists in H. destruct H as (k' & Hin & Hk).
  apply String.eqb_eq in Hk. now subst.
Qed.

(** X3.  The keys of the statistics table are compared as they are
    written: when no make of the table is in normal form (an upper-case
    letter, a blank at either end), no vehicle is matched, each one is
    counted as missing and returned unchanged. *)
Theorem raw_table_keys_never_match
    (by_make : list (string * json)) (car : json)
    (make model fuel : string) (year : Z) (u m : nat) :
  vehicle car make model fuel year ->
  (forall k, In k (keys by_make) -> normalize_key k <> k) ->
  update_car (JDict by_make) car u m = Ok (car, u, S m).
Proof.
  intros Hv Hraw.
  apply update_car_missing with (1 := vehicle_lookup_key _ _ _ _ _ Hv)
                                (fd := JNull); [|reflexivity].
  unfold find_data, has_path. simpl.
  destruct (existsb (String.eqb (normalize_key make)) (keys by_make)) eqn:E;
    [|reflexivity].
  apply existsb_eqb_In in E.
  destruct (Hraw _ E). apply normalize_key_fixed.
Qed.

Lemma raw_table_keys_never_match_witness :
  update_car (JDict [("Ford", JDict [("focus",
                JDict [("petrol", JDict [("2014", avg 6430)])])])])
    (focus (JInt 5000)) 0%nat 0%nat = Ok (focus (JInt 5000), 0%nat, 1%nat).
Proof.
  apply (raw_table_keys_never_match
           [("Ford", JDict [("focus",
               JDict [("petrol", JDict [("2014", avg 6430)])])])]
           (focus (JInt 5000)) "Ford" "Focus" "Petrol" 2018 0%nat 0%nat).
  - repeat split. exists (JInt 2018). split; reflexivity.
  - intros k Hk. simpl in Hk. destruct Hk as [<-|[]]. discriminate.
Defined.

Lemma digit_years_none (ks : list string) :
  existsb isdigit ks = false -> digit_years ks = [].
Proof.
  unfold digit_years. induction ks as [|k ks IH]; simpl; [reflexivity|].
  destruct (isdigit k); simpl; [discriminate | assumption].
Qed.

(** X4.  When the fuel-type mapping of a vehicle has neither the exact
    target key nor any all-digit key (an empty mapping, or keys such as
    ["2014.0"] or ["unknown"]), nothing is chosen: the vehicle is counted as
    missing and returned unchanged. *)
Theorem no_digit_key_is_missing
    (stats car : json) (make model fuel : string) (year : Z)
    (d : list (string * json)) (u m : nat) :
  vehicle car make model fuel year ->
  fuel_level stats (normalize_key make) (normalize_key model)
    (normalize_key fuel) = Some d ->
  lookup (str_of_int (target_year year)) d = None ->
  existsb isdigit (keys d) = false ->
  update_car stats car u m = Ok (car, u, S m).
Proof.
  intros Hv Hd Hnone Hdig.
  apply fuel_level_path in Hd. destruct Hd as [_ Hd].
  apply update_car_missing with (1 := vehicle_lookup_key _ _ _ _ _ Hv)
                                (fd := JNull); [|reflexivity].
  now rewrite Hd, (lookup_year_fallback d _ Hnone), (digit_years_none _ Hdig).
Qed.

Lemma no_digit_key_is_missing_witness :
  update_car (focus_stats [("2014.0", avg 6430); ("unknown", avg 5000)])
    (focus (JInt 5000)) 0%nat 0%nat = Ok (focus (JInt 5000), 0%nat, 1%nat).
Proof.
  apply (no_digit_key_is_missing
           (focus_stats [("2014.0", avg 6430); ("unknown", avg 5000)])
           (focus (JInt 5000)) "Ford" "Focus" "Petrol" 2018
           [("2014.0", avg 6430); ("unknown", avg 5000)] 0%nat 0%nat).
  - repeat split. exists (JInt 2018). split; reflexivity.
  - reflexivity.
  - reflexivity.
  - reflexivity.
Defined.

(** ** Further properties: records the body cannot price *)

Lemma update_car_apply_raises (stats car : json) (u m : nat)
    (mk md fu : string) (t : Z) (fd : json) (e : exn) :
  lookup_key car = Ok (mk, md, fu, t) ->
  find_data stats mk md fu t = Ok fd ->
  truthy fd = true ->
  apply_price car fd u = Raise e ->
  update_car stats car u m = Raise e.
Proof.
  intros Hk Hf Ht Ha. unfold update_car.
  rewrite Hk; simpl. rewrite Hf; simpl. rewrite Ht, Ha. reflexivity.
Qed.

(** X5.  A record of the statistics that is chosen for a vehicle and is
    not empty but has no [avgPrice] makes the body raise the [KeyError] of
    [avgPrice]; a chosen value that is true and is not a mapping (a number,
    a string, a list) makes it raise [TypeError]. *)
Theorem record_without_avgPrice_raises
    (stats car : json) (make model fuel : string) (year : Z)
    (found_data : json) (u m : nat) :
  vehicle car make model fuel year ->
  find_data stats (normalize_key make) (normalize_key model)
    (normalize_key fuel) (target_year year) = Ok found_data ->
  truthy found_data = true ->
  (forall r, found_data = JDict r -> lookup "avgPrice" r = None) ->
  update_car stats car u m =
  Raise (match found_data with
         | JDict _ => KeyError "avgPrice"
         | _ => TypeError
         end).
Proof.
  intros Hv Hf Ht Hr.
  apply update_car_apply_raises
    with (1 := vehicle_lookup_key _ _ _ _ _ Hv) (2 := Hf) (3 := Ht).
  unfold apply_price.
  destruct found_data; try reflexivity.
  simpl. now rewrite (Hr d eq_refl).
Qed.

Lemma record_without_avgPrice_raises_witness :
  update_car (focus_stats [("2014", JDict [("count", JInt 12)])])
    (focus (JInt 5000)) 0%nat 0%nat = Raise (KeyError "avgPrice").
Proof.
  apply (record_without_avgPrice_raises
           (focus_stats [("2014", JDict [("count", JInt 12)])])
           (focus (JInt 5000)) "Ford" "Focus" "Petrol" 2018
           (JDict [("count", JInt 12)]) 0%nat 0%nat).
  - repeat split. exists (JInt 2018). split; reflexivity.
  - vm_compute. reflexivity.
  - reflexivity.
  - intros r Hr. injection Hr as <-. reflexivity.
Defined.

(** X6.  An [avgPrice] that is not a number ([null], a string such as
    ["6430"], a list, a mapping) makes the body raise [TypeError] at the
    division. *)
Theorem avgPrice_not_a_number_raises
    (stats car : json) (make model fuel : string) (year : Z)
    (found_data avg_price : json) (u m : nat) :
  vehicle car make model fuel year ->
  find_data stats (normalize_key make) (normalize_key model)
    (normalize_key fuel) (target_year year) = Ok found_data ->
  getitem found_data "avgPrice" = Ok avg_price ->
  as_number avg_price = None ->
  update_car stats car u m = Raise TypeError.
Proof.
  intros Hv Hf Ha Hn.
  apply update_car_apply_raises
    with (1 := vehicle_lookup_key _ _ _ _ _ Hv) (2 := Hf)
         (3 := getitem_truthy _ _ _ Ha).
  unfold apply_price. rewrite Ha. simpl.
  destruct avg_price; try discriminate; reflexivity.
Qed.

Lemma avgPrice_not_a_number_raises_witness :
  update_car (focus_stats [("2014", JDict [("avgPrice", JStr "6430")])])
    (focus (JInt 5000)) 0%nat 0%nat = Raise TypeError.
Proof.
  apply (avgPrice_not_a_number_raises
           (focus_stats [("2014", JDict [("avgPrice", JStr "6430")])])
           (focus (JInt 5000)) "Ford" "Focus" "Petrol" 2018
           (JDict [("avgPrice", JStr "6430")]) (JStr "6430") 0%nat 0%nat).
  - repeat split. exists (JInt 2018). split; reflexivity.
  - vm_compute. reflexivity.
  - reflexivity.
  - reflexivity.
Defined.

(** X7.  For a vehicle for which a price is found, an [originalListPrice]
    that is not a number ([null], a string, a list, a mapping) makes the
    comparison with it raise [TypeError], whether or not the price was
    just replaced. *)
Theorem list_price_not_a_number_raises
    (stats car : json) (make model fuel : string) (year : Z)
    (found_data avg_price : json) (n : Z) (basic list_price : json)
    (u m : nat) :
  vehicle car make model fuel year ->
  find_data stats (normalize_key make) (normalize_key model)
    (normalize_key fuel) (target_year year) = Ok found_data ->
  getitem found_data "avgPrice" = Ok avg_price ->
  new_price_of avg_price = Ok n ->
  getitem car "basicPrice" = Ok basic ->
  getitem car "originalListPrice" = Ok list_price ->
  as_number list_price = None ->
  update_car stats car u m = Raise TypeError.
Proof.
  intros Hv Hf Ha Hn Hb Ho Hnum.
  apply update_car_apply_raises
    with (1 := vehicle_lookup_key _ _ _ _ _ Hv) (2 := Hf)
         (3 := getitem_truthy _ _ _ Ha).
  unfold apply_price. rewrite Ha; simpl. rewrite Hn; simpl.
  rewrite Hb; simpl.
  assert (Hstep :
    (if ne_int n basic
     then car' <- store car "basicPrice" (JInt n) ;; Ok (car', S u)
     else Ok (car, u)) =
    Ok (priced car n basic, if ne_int n basic then S u else u)).
  { unfold priced. destruct (ne_int n basic); [|reflexivity].
    apply getitem_Ok in Hb. destruct Hb as (d & -> & _). reflexivity. }
  rewrite Hstep; simpl.
  rewrite (getitem_priced_basic car n basic Hb); simpl.
  rewrite (getitem_priced car n basic "originalListPrice" Hb), Ho
    by discriminate; simpl.
  unfold py_gt. rewrite Hnum.
  now destruct (as_number (if ne_int n basic then JInt n else basic)).
Qed.

Lemma list_price_not_a_number_raises_witness :
  update_car (focus_stats [("2014", avg 6430)])
    (focus_listed (JInt 5000) JNull) 0%nat 0%nat = Raise TypeError.
Proof.
  apply (list_price_not_a_number_raises
           (focus_stats [("2014", avg 6430)])
           (focus_listed (JInt 5000) JNull) "Ford" "Focus" "Petrol" 2018
           (avg 6430) (JInt 6430) 6400 (JInt 5000) JNull 0%nat 0%nat).
  - repeat split. exists (JInt 2018). split; reflexivity.
  - vm_compute. reflexivity.
  - reflexivity.
  - vm_compute. reflexivity.
  - reflexivity.
  - reflexivity.
  - reflexivity.
Defined.

(** X8.  A [basicPrice] that is not a number (a string such as ["6400"],
    [null]) never compares equal to the new price: it is replaced by the
    integer price and the record is counted as updated, even when the
    string spells that price. *)
Theorem basicPrice_not_a_number_is_replaced
    (stats car : json) (make model fuel : string) (year : Z)
    (found_data avg_price : json) (n : Z) (basic list_price : json)
    (u m : nat) :
  vehicle car make model fuel year ->
  find_data stats (normalize_key make) (normalize_key model)
    (normalize_key fuel) (target_year year) = Ok found_data ->
  getitem found_data "avgPrice" = Ok avg_price ->
  new_price_of avg_price = Ok n ->
  getitem car "basicPrice" = Ok basic ->
  as_number basic = None ->
  getitem car "originalListPrice" = Ok list_price ->
  is_number list_price ->
  exists car',
    update_car stats car u m = Ok (car', S u, m) /\
    getitem car' "basicPrice" = Ok (JInt n).
Proof.
  intros Hv Hf Ha Hn Hb Hnot Ho Hnum.
  assert (Hne : ne_int n basic = true).
  { destruct basic; try reflexivity; discriminate. }
  exists (priced car n basic). split.
  - rewrite (update_car_found stats car u m _ _ _ _ _ _ _ _ _
               (vehicle_lookup_key _ _ _ _ _ Hv) Hf Ha Hn Hb Ho Hnum).
    now rewrite Hne.
  - rewrite (getitem_priced_basic car n basic Hb). now rewrite Hne.
Qed.

Lemma basicPrice_not_a_number_is_replaced_witness :
  exists car',
    update_car (focus_stats [("2014", avg 6430)]) (focus (JStr "6400"))
      0%nat 0%nat = Ok (car', 1%nat, 0%nat) /\
    getitem car' "basicPrice" = Ok (JInt 6400).
Proof.
  apply (basicPrice_not_a_number_is_replaced
           (focus_stats [("2014", avg 6430)]) (focus (JStr "6400"))
           "Ford" "Focus" "Petrol" 2018 (avg 6430) (JInt 6430) 6400
           (JStr "6400") (JInt 12000) 0%nat 0%nat).
  - repeat split. exists (JInt 2018). split; reflexivity.
  - vm_compute. reflexivity.
  - reflexivity.
  - vm_compute. reflexivity.
  - reflexivity.
  - reflexivity.
  - reflexivity.
  - unfold is_number. simpl. discriminate.
Defined.

(** X9.  A [make], [model] or [fuelType] that is present but is not a
    string makes the body raise [AttributeError], when the names read
    before it are strings. *)
Theorem name_not_a_string_raises
    (stats : json) (d : list (string * json)) (k : string) (v : json)
    (u m : nat) :
  In k names ->
  lookup k d = Some v ->
  (forall s, v <> JStr s) ->
  (forall k', In k' (read_before k) -> exists s, lookup k' d = Some (JStr s)) ->
  update_car stats (JDict d) u m = Raise AttributeError.
Proof.
  intros Hin Hk Hv Hs.
  assert (Hname : forall k', In k' (read_before k) ->
            exists s, getitem (JDict d) k' = Ok (JStr s)).
  { intros k' H1. destruct (Hs k' H1) as [s Hl].
    exists s. simpl. now rewrite Hl. }
  assert (Hget : getitem (JDict d) k = Ok v).
  { simpl. now rewrite Hk. }
  assert (Hnorm : normalize v = Raise AttributeError).
  { destruct v; try reflexivity. now destruct (Hv s). }
  unfold update_car, lookup_key. simpl in Hin.
  destruct Hin as [<-|[<-|[<-|[]]]].
  - rewrite Hget. cbn [bind]. now rewrite Hnorm.
  - destruct (Hname "make") as [s1 ->]; [simpl; auto|].
    cbn [bind normalize]. rewrite Hget. cbn [bind]. now rewrite Hnorm.
  - destruct (Hname "make") as [s1 ->]; [simpl; auto|].
    destruct (Hname "model") as [s2 ->]; [simpl; auto|].
    cbn [bind normalize]. rewrite Hget. cbn [bind]. now rewrite Hnorm.
Qed.

Lemma name_not_a_string_raises_witness :
  update_car (focus_stats [("2014", avg 6430)])
    (JDict [("make", JStr "Ford"); ("model", JInt 3)]) 0%nat 0%nat =
  Raise AttributeError.
Proof.
  apply (name_not_a_string_raises
           (focus_stats [("2014", avg 6430)])
           [("make", JStr "Ford"); ("model", JInt 3)] "model" (JInt 3)
           0%nat 0%nat).
  - simpl. right. left. reflexivity.
  - reflexivity.
  - intros s. discriminate.
  - intros k' Hk'. simpl in Hk'.
    destruct Hk' as [<-|[]]. exists "Ford". reflexivity.
Defined.

(** ** Further properties: the counters and the written catalog *)

Lemma basic_differs_same (car : json) : basic_differs car car = false.
Proof.
  unfold basic_differs. destruct (getitem car "basicPrice") as [b|e];
    [|reflexivity].
  destruct b; try reflexivity. apply ne_int_refl.
Qed.

Lemma basic_differs_priced (car : json) (n : Z) (b : json) :
  getitem car "basicPrice" = Ok b ->
  basic_differs car (priced car n b) = ne_int n b.
Proof.
  intros Hb. unfold basic_differs.
  rewrite Hb, (getitem_priced_basic car n b Hb).
  destruct (ne_int n b) eqn:E; [exact E|].
  destruct b; try reflexivity. apply ne_int_refl.
Qed.

Lemma priced_differs (car : json) (n : Z) (b : json) :
  getitem car "basicPrice" = Ok b ->
  ne_int n b = true -> priced car n b <> car.
Proof.
  intros Hb Hne Heq.
  pose proof (getitem_priced_basic car n b Hb) as H.
  rewrite Heq, Hb, Hne in H. injection H as ->.
  now rewrite ne_int_refl in Hne.
Qed.

(** What one pass of the body does to its record and to the counters. *)
Lemma update_car_effect (stats car : json) (u m : nat) (car' : json)
    (u' m' : nat) :
  update_car stats car u m = Ok (car', u', m') ->
  u' = ((if basic_differs car car' then 1 else 0) + u)%nat /\
  (if basic_differs car car' then car' <> car /\ m' = m
   else car' = car /\ (m' = m \/ m' = S m)).
Proof.
  intros H. apply update_car_Ok in H.
  destruct H as (mk & md & fu & t & fd & _ & _ & [H|H]).
  - destruct H as (_ & -> & -> & ->).
    rewrite basic_differs_same. auto.
  - destruct H as (_ & -> & a & n & b & o & _ & _ & Hb & _ & _ & -> & ->).
    rewrite (basic_differs_priced car n b Hb).
    destruct (ne_int n b) eqn:E.
    + split; [reflexivity|]. split; [|reflexivity].
      now apply priced_differs.
    + split; [reflexivity|]. unfold priced. rewrite E. auto.
Qed.

Lemma update_loop_effect (stats : json) (cars : list json) :
  forall (u m : nat) (cars' : list json) (u' m' : nat),
    update_loop stats cars u m = Ok (cars', u', m') ->
    u' = (count_changed cars cars' + u)%nat /\
    (m <= m')%nat /\
    (u' + m' <= u + m + List.length cars)%nat /\
    Forall2 (fun c c' => if basic_differs c c' then c' <> c else c' = c)
      cars cars'.
Proof.
  induction cars as [|c cars IH]; simpl; intros u m cars' u' m' H.
  - injection H as <- <- <-. simpl. repeat split; try lia. constructor.
  - inv_bind H. destruct a as [[c1 u1] m1]. inv_bind H.
    destruct a as [[rest1 u2] m2]. injection H as <- <- <-.
    apply update_car_effect in Hstep. destruct Hstep as [Hu Hc].
    destruct (IH _ _ _ _ _ Hstep0) as (Hu2 & Hm & Hsum & Hall).
    simpl.
    destruct (basic_differs c c1) eqn:E.
    + destruct Hc as [Hne ->]. repeat split; try lia.
      constructor; [now rewrite E | assumption].
    + destruct Hc as [-> Hm1]. repeat split; try lia.
      constructor; [now rewrite E | assumption].
Qed.

(** X10.  In a run that ends normally, the count of updated records is the
    number of places of the catalog at which the written record holds an
    integer [basicPrice] different from the one read; the records at all
    other places are written exactly as they were read, and the records at
    those places are not. *)
Theorem updated_counts_changed_records
    (fs fs' : files) (u m : nat) (cars : list json) :
  update_prices fs = (fs', Ok (u, m)) ->
  cars_json fs = JList cars ->
  exists cars',
    cars_json fs' = JList cars' /\
    u = count_changed cars cars' /\
    Forall2 (fun c c' => if basic_differs c c' then c' <> c else c' = c)
      cars cars'.
Proof.
  intros H Hc. apply update_prices_Ok in H. destruct H as [_ H].
  rewrite Hc in H. apply run_loop_list in H. destruct H as (l' & Hl & H).
  apply update_loop_effect in H. destruct H as (Hu & _ & _ & Hall).
  exists l'. split; [assumption|]. split; [lia | assumption].
Qed.

Lemma updated_counts_changed_records_witness :
  exists cars',
    cars_json {| cars_json := JList [focus (JInt 6400); focus (JInt 6400); kia];
                 market_stats_json := focus_stats [("2014", avg 6430)] |} =
    JList cars' /\
    1%nat = count_changed [focus (JInt 5000); focus (JInt 6400); kia] cars' /\
    Forall2 (fun c c' => if basic_differs c c' then c' <> c else c' = c)
      [focus (JInt 5000); focus (JInt 6400); kia] cars'.
Proof.
  apply (updated_counts_changed_records three_cars _ 1%nat 1%nat
           [focus (JInt 5000); focus (JInt 6400); kia]).
  - vm_compute. reflexivity.
  - reflexivity.
Defined.

(** X11.  In a run that ends normally no record is counted twice: the two
    counts together never exceed the number of records of the catalog. *)
Theorem counts_bounded_by_catalog
    (fs fs' : files) (u m : nat) (cars : list json) :
  update_prices fs = (fs', Ok (u, m)) ->
  cars_json fs = JList cars ->
  (u + m <= List.length cars)%nat.
Proof.
  intros H Hc. apply update_prices_Ok in H. destruct H as [_ H].
  rewrite Hc in H. apply run_loop_list in H. destruct H as (l' & Hl & H).
  apply update_loop_effect in H. lia.
Qed.

Lemma counts_bounded_by_catalog_witness :
  (1 + 1 <= List.length [focus (JInt 5000); focus (JInt 6400); kia])%nat.
Proof.
  apply (counts_bounded_by_catalog three_cars
           {| cars_json := JList [focus (JInt 6400); focus (JInt 6400); kia];
              market_stats_json := focus_stats [("2014", avg 6430)] |}
           1%nat 1%nat [focus (JInt 5000); focus (JInt 6400); kia]).
  - vm_compute. reflexivity.
  - reflexivity.
Defined.

Lemma new_price_multiple (a : json) (n : Z) :
  new_price_of a = Ok n -> exists r, n = r * 100.
Proof.
  unfold new_price_of. intros H. inv_bind H. inv_bind H.
  injection H as <-. eauto.
Qed.

(** X12.  Every price the procedure stores is an integer multiple of 100:
    in the catalog written by a run that ends normally each record is the
    record read, or has an integer [basicPrice] divisible by 100. *)
Theorem stored_prices_are_hundreds
    (fs fs' : files) (u m : nat) (cars : list json) :
  update_prices fs = (fs', Ok (u, m)) ->
  cars_json fs = JList cars ->
  exists cars',
    cars_json fs' = JList cars' /\
    Forall2 (fun c c' =>
               c' = c \/
               exists r, getitem c' "basicPrice" = Ok (JInt (r * 100)))
      cars cars'.
Proof.
  intros H Hc. apply update_prices_Ok in H. destruct H as [_ H].
  rewrite Hc in H. apply run_loop_list in H. destruct H as (l' & Hl & H).
  exists l'. split; [assumption|].
  apply (update_loop_Forall2 (market_stats_json fs)) with (2 := H).
  intros car u0 m0 car' u' m' Hcar. apply update_car_Ok in Hcar.
  destruct Hcar as (mk & md & fu & t & fd & _ & _ & [Hm|Hf]).
  - destruct Hm as (_ & -> & _). now left.
  - destruct Hf as (_ & _ & a & n & b & o & _ & Hn & Hb & _ & _ & -> & _).
    destruct (ne_int n b) eqn:E.
    + right. destruct (new_price_multiple a n Hn) as [r ->].
      exists r. rewrite (getitem_priced_basic car _ b Hb). now rewrite E.
    + left. unfold priced. now rewrite E.
Qed.

Lemma stored_prices_are_hundreds_witness :
  exists cars',
    cars_json {| cars_json := JList [focus (JInt 6400)];
                 market_stats_json := focus_stats [("2014", avg 6430)] |} =
    JList cars' /\
    Forall2 (fun c c' =>
               c' = c \/
               exists r, getitem c' "basicPrice" = Ok (JInt (r * 100)))
      [focus (JInt 5000)] cars'.
Proof.
  apply (stored_prices_are_hundreds
           (scenario (focus_stats [("2014", avg 6430)])) _ 1%nat 0%nat
           [focus (JInt 5000)]).
  - vm_compute. reflexivity.
  - reflexivity.
Defined.

(** ** Further properties: how runs compose *)

Lemma update_loop_app (stats : json) (l1 l2 : list json) :
  forall u m,
    update_loop stats (l1 ++ l2) u m =
    ('(l1', u1, m1) <- update_loop stats l1 u m ;;
     '(l2', u2, m2) <- update_loop stats l2 u1 m1 ;;
     Ok (l1' ++ l2', u2, m2)).
Proof.
  induction l1 as [|c l1 IH]; intros u m; simpl.
  - destruct (update_loop stats l2 u m) as [[[l2' u2] m2]|e]; reflexivity.
  - destruct (update_car stats c u m) as [[[c1 u1] m1]|e]; simpl;
      [|reflexivity].
    rewrite IH.
    destruct (update_loop stats l1 u1 m1) as [[[l1' u2] m2]|e]; simpl;
      [|reflexivity].
    destruct (update_loop stats l2 u2 m2) as [[[l2' u3] m3]|e]; reflexivity.
Qed.

Lemma update_loop_counters (stats : json) (cars : list json) :
  forall (u m : nat) (cars' : list json) (u' m' : nat),
    update_loop stats cars u m = Ok (cars', u', m') ->
    exists du dm,
      (u' = du + u /\ m' = dm + m)%nat /\
      forall u2 m2,
        update_loop stats cars u2 m2 =
        Ok (cars', (du + u2)%nat, (dm + m2)%nat).
Proof.
  induction cars as [|c cars IH]; simpl; intros u m cars' u' m' H.
  - injection H as <- <- <-. exists 0%nat, 0%nat. auto.
  - inv_bind H. destruct a as [[c1 u1] m1]. inv_bind H.
    destruct a as [[rest1 u2] m2]. injection H as <- <- <-.
    destruct (update_car_counters _ _ _ _ _ _ _ Hstep)
      as (du1 & dm1 & [-> ->] & H1).
    destruct (IH _ _ _ _ _ Hstep0) as (du2 & dm2 & [-> ->] & H2).
    exists (du2 + du1)%nat, (dm2 + dm1)%nat.
    split; [lia|]. intros u3 m3.
    rewrite H1. simpl. rewrite H2. simpl.
    now rewrite !Nat.add_assoc.
Qed.

(** X13.  The run ends with the exception of the first record on which
    the body raises: whatever the records before it had changed in memory
    and whatever follows, no file is written. *)
Theorem first_failing_record_aborts
    (fs : files) (before after : list json) (car : json)
    (before' : list json) (u m : nat) (e : exn) :
  cars_json fs = JList (before ++ car :: after) ->
  update_loop (market_stats_json fs) before 0%nat 0%nat =
    Ok (before', u, m) ->
  update_car (market_stats_json fs) car u m = Raise e ->
  update_prices fs = (fs, Raise e).
Proof.
  intros Hc Hb Hcar. unfold update_prices. rewrite Hc. simpl.
  rewrite update_loop_app, Hb. simpl. now rewrite Hcar.
Qed.

Lemma first_failing_record_aborts_witness :
  update_prices
    {| cars_json := JList ([focus (JInt 5000)] ++ focus_bad_year :: [kia]);
       market_stats_json := focus_stats [("2014", avg 6430)] |} =
  ({| cars_json := JList ([focus (JInt 5000)] ++ focus_bad_year :: [kia]);
      market_stats_json := focus_stats [("2014", avg 6430)] |},
   Raise ValueError).
Proof.
  apply (first_failing_record_aborts
           {| cars_json :=
                JList ([focus (JInt 5000)] ++ focus_bad_year :: [kia]);
              market_stats_json := focus_stats [("2014", avg 6430)] |}
           [focus (JInt 5000)] [kia] focus_bad_year
           [focus (JInt 6400)] 1%nat 0%nat ValueError).
  - reflexivity.
  - vm_compute. reflexivity.
  - vm_compute. reflexivity.
Defined.

(** X14.  Runs compose over concatenation: when the runs on two catalogs
    with the same statistics end normally, the run on the two catalogs
    joined writes the two written catalogs joined and reports the sums of
    the two counts. *)
Theorem run_on_joined_catalogs
    (stats : json) (l1 l2 l1' l2' : list json) (u1 m1 u2 m2 : nat) :
  update_prices {| cars_json := JList l1; market_stats_json := stats |} =
    ({| cars_json := JList l1'; market_stats_json := stats |},
     Ok (u1, m1)) ->
  update_prices {| cars_json := JList l2; market_stats_json := stats |} =
    ({| cars_json := JList l2'; market_stats_json := stats |},
     Ok (u2, m2)) ->
  update_prices {| cars_json := JList (l1 ++ l2);
                   market_stats_json := stats |} =
    ({| cars_json := JList (l1' ++ l2'); market_stats_json := stats |},
     Ok ((u1 + u2)%nat, (m1 + m2)%nat)).
Proof.
  intros H1 H2.
  apply update_prices_Ok in H1. destruct H1 as [_ H1].
  apply update_prices_Ok in H2. destruct H2 as [_ H2].
  simpl in H1, H2.
  inv_bind H1. destruct a as [[k1 a1] b1]. injection H1 as <- <- <-.
  inv_bind H2. destruct a as [[k2 a2] b2]. injection H2 as <- <- <-.
  destruct (update_loop_counters _ _ _ _ _ _ _ Hstep0)
    as (du & dm & [Hu Hm] & Hshift).
  unfold update_prices. simpl.
  rewrite update_loop_app, Hstep. simpl. rewrite Hshift. simpl.
  do 3 f_equal; lia.
Qed.

Lemma run_on_joined_catalogs_witness :
  update_prices {| cars_json := JList ([focus (JInt 5000)] ++ [kia]);
                   market_stats_json := focus_stats [("2014", avg 6430)] |} =
    ({| cars_json := JList ([focus (JInt 6400)] ++ [kia]);
        market_stats_json := focus_stats [("2014", avg 6430)] |},
     Ok ((1 + 0)%nat, (0 + 1)%nat)).
Proof.
  apply (run_on_joined_catalogs (focus_stats [("2014", avg 6430)])
           [focus (JInt 5000)] [kia] [focus (JInt 6400)] [kia]
           1%nat 0%nat 0%nat 1%nat).
  - vm_compute. reflexivity.
  - vm_compute. reflexivity.
Defined.

(** X15.  Each record is priced on its own: in a run that ends normally
    the record written at a place is the one the body returns for the
    record read there, started with both counters at zero, and that record
    adds at most one to the two counts together. *)
Theorem records_are_independent
    (fs fs' : files) (u m : nat) (cars : list json) (i : nat) (car : json) :
  update_prices fs = (fs', Ok (u, m)) ->
  cars_json fs = JList cars ->
  nth_error cars i = Some car ->
  exists cars' car' du dm,
    cars_json fs' = JList cars' /\
    nth_error cars' i = Some car' /\
    update_car (market_stats_json fs) car 0%nat 0%nat = Ok (car', du, dm) /\
    (du + dm <= 1)%nat.
Proof.
  intros H Hc Hi.
  destruct (run_nth _ _ _ _ _ _ _ H Hc Hi)
    as (cars' & car' & u1 & m1 & u2 & m2 & Hc' & Hi' & Hcar).
  pose proof (update_car_effect _ _ _ _ _ _ _ Hcar) as [Hu Hm].
  destruct (update_car_counters _ _ _ _ _ _ _ Hcar)
    as (du & dm & [Hdu Hdm] & Hshift).
  exists cars', car', du, dm.
  split; [assumption|]. split; [assumption|].
  split; [now rewrite Hshift, !Nat.add_0_r|].
  destruct (basic_differs car car'); lia.
Qed.

Lemma records_are_independent_witness :
  exists cars' car' du dm,
    cars_json {| cars_json := JList [focus (JInt 6400); focus (JInt 6400); kia];
                 market_stats_json := focus_stats [("2014", avg 6430)] |} =
    JList cars' /\
    nth_error cars' 2 = Some car' /\
    update_car (market_stats_json three_cars) kia 0%nat 0%nat =
      Ok (car', du, dm) /\
    (du + dm <= 1)%nat.
Proof.
  apply (records_are_independent three_cars _ 1%nat 1%nat
           [focus (JInt 5000); focus (JInt 6400); kia] 2%nat kia).
  - vm_compute. reflexivity.
  - reflexivity.
  - reflexivity.
Defined.

(** X16.  A catalog that is not a list is never rewritten: the run raises
    [TypeError], except for an empty mapping or an empty string, for which
    it visits nothing and reports zero updated and zero missing. *)
Theorem catalog_not_a_list (fs : files) :
  (forall l, cars_json fs <> JList l) ->
  (update_prices fs = (fs, Ok (0%nat, 0%nat)) /\
   (cars_json fs = JDict [] \/ cars_json fs = JStr EmptyString)) \/
  (update_prices fs = (fs, Raise TypeError) /\
   cars_json fs <> JDict [] /\ cars_json fs <> JStr EmptyString).
Proof.
  intros Hl. destruct fs as [cars stats]. simpl in *.
  unfold update_prices. simpl.
  destruct cars as [| | | |s|l|d]; simpl;
    try (right; repeat split; discriminate).
  - destruct s as [|c s]; simpl; [left; auto|].
    right. repeat split; discriminate.
  - now destruct (Hl l).
  - destruct d as [|[k v] d]; simpl; [left; auto|].
    right. repeat split; discriminate.
Qed.

Lemma catalog_not_a_list_witness :
  (update_prices {| cars_json := JDict [("cars", JList [focus (JInt 5000)])];
                    market_stats_json := JDict [] |} =
     ({| cars_json := JDict [("cars", JList [focus (JInt 5000)])];
         market_stats_json := JDict [] |}, Ok (0%nat, 0%nat)) /\
   (JDict [("cars", JList [focus (JInt 5000)])] = JDict [] \/
    JDict [("cars", JList [focus (JInt 5000)])] = JStr EmptyString)) \/
  (update_prices {| cars_json := JDict [("cars", JList [focus (JInt 5000)])];
                    market_stats_json := JDict [] |} =
     ({| cars_json := JDict [("cars", JList [focus (JInt 5000)])];
         market_stats_json := JDict [] |}, Raise TypeError) /\
   JDict [("cars", JList [focus (JInt 5000)])] <> JDict [] /\
   JDict [("cars", JList [focus (JInt 5000)])] <> JStr EmptyString).
Proof.
  apply (catalog_not_a_list
           {| cars_json := JDict [("cars", JList [focus (JInt 5000)])];
              market_stats_json := JDict [] |}).
  intros l. simpl. discriminate.
Defined.

(** ** Further properties: the reports of the analysis scripts *)

Lemma div_count_pos (x : total) (n : nat) :
  (0 < n)%nat -> exists q, div_count x n = Some q.
Proof. destruct n; [lia|]. intros _. simpl. eauto. Qed.

Lemma filter_length_all {A : Type} (f : A -> bool) (l : list A) :
  forallb f l = true -> List.length (filter f l) = List.length l.
Proof.
  induction l as [|a l IH]; simpl; [reflexivity|].
  intros H. apply andb_true_iff in H. destruct H as [-> H].
  simpl. now rewrite IH.
Qed.

Lemma filter_length_le {A : Type} (f : A -> bool) (l : list A) :
  (List.length (filter f l) <= List.length l)%nat.
Proof.
  induction l as [|a l IH]; simpl; [lia|].
  destruct (f a); simpl; lia.
Qed.

Lemma filter_length_some {A : Type} (f : A -> bool) (l : list A) :
  forallb f l = false -> (List.length (filter f l) < List.length l)%nat.
Proof.
  induction l as [|a l IH]; simpl; [discriminate|].
  destruct (f a); simpl; intros H.
  - specialize (IH H). lia.
  - pose proof (filter_length_le f l). lia.
Qed.

Lemma insert_by_price_perm (r : tt_advert) (l : list tt_advert) :
  Permutation (insert_by_price r l) (r :: l).
Proof.
  induction l as [|r' l IH]; simpl; [reflexivity|].
  destruct (SFltb (tt_price r') (tt_price r)); [|reflexivity].
  rewrite IH. apply perm_swap.
Qed.

Lemma insertion_sort_perm (l : list tt_advert) :
  Permutation (insertion_sort l) l.
Proof.
  induction l as [|r l IH]; simpl; [reflexivity|].
  rewrite insert_by_price_perm. now constructor.
Qed.

Lemma tt_report_year_cases
    (float_sum : list spec_float -> spec_float)
    (sort_by_price : list tt_advert -> list tt_advert)
    (year : string) (data : list tt_advert) :
  (forall l, Permutation (sort_by_price l) l) ->
  (data <> [] -> forallb tt_high_perf data = true ->
   exists avg avg_high,
     tt_report_year float_sum sort_by_price year data =
     ([TT_year year (List.length data) avg (List.length data);
       TT_high avg_high],
      Some ZeroDivisionError, sort_by_price data)) /\
  (data = [] \/ forallb tt_high_perf data = false ->
   snd (fst (tt_report_year float_sum sort_by_price year data)) = None).
Proof.
  intros Hperm.
  assert (Hlen : List.length (sort_by_price data) = List.length data).
  { apply Permutation_length, Hperm. }
  split.
  - intros Hne Hall. unfold tt_report_year.
    destruct data as [|r l] eqn:Ed; [contradiction|]. rewrite <- Ed in *.
    assert (Hpos : (0 < List.length data)%nat) by (rewrite Ed; simpl; lia).
    rewrite length_map.
    destruct (div_count_pos (py_sum float_sum (map tt_price data)) _ Hpos)
      as [avg ->].
    rewrite (filter_length_all _ _ Hall), Hlen.
    destruct (Nat.ltb_spec 0 (List.length data)) as [_|]; [|lia].
    destruct (div_count_pos
                (py_sum float_sum
                   (map tt_price (filter tt_high_perf (sort_by_price data))))
                _ Hpos) as [avg_high ->].
    rewrite Nat.sub_diag. simpl. eauto.
  - intros [->|Hsome]; [reflexivity|]. unfold tt_report_year.
    destruct data as [|r l] eqn:Ed; [reflexivity|]. rewrite <- Ed in *.
    assert (Hpos : (0 < List.length data)%nat) by (rewrite Ed; simpl; lia).
    rewrite length_map.
    destruct (div_count_pos (py_sum float_sum (map tt_price data)) _ Hpos)
      as [avg ->].
    pose proof (filter_length_some _ _ Hsome) as Hlt. rewrite Hlen.
    destruct (Nat.ltb_spec 0 (List.length (filter tt_high_perf data)))
      as [Hhp|]; [|reflexivity].
    destruct (div_count_pos
                (py_sum float_sum
                   (map tt_price (filter tt_high_perf (sort_by_price data))))
                _ Hhp) as [avg_high ->].
    destruct (div_count_pos
                (py_sum float_sum
                   (map tt_price (filter tt_normal (sort_by_price data))))
                (List.length data - List.length (filter tt_high_perf data)))
      as [avg_normal ->]; [lia | reflexivity].
Qed.

(** X17.  The report of [analyze_tt.py] for a year divides the sum of the
    prices of the adverts that are not high-performance by their number
    without testing it: when the year has adverts and all of them are
    high-performance, the body prints the year line and the
    high-performance line and then raises [ZeroDivisionError]; in every
    other case it raises nothing. *)
Theorem tt_year_all_high_perf_divides_by_zero
    (float_sum : list spec_float -> spec_float)
    (sort_by_price : list tt_advert -> list tt_advert)
    (year : string) (data : list tt_advert) :
  (forall l, Permutation (sort_by_price l) l) ->
  snd (fst (tt_report_year float_sum sort_by_price year data)) =
    (if all_high_perf data then Some ZeroDivisionError else None) /\
  (all_high_perf data = true ->
   exists avg avg_high,
     tt_report_year float_sum sort_by_price year data =
     ([TT_year year (List.length data) avg (List.length data);
       TT_high avg_high],
      Some ZeroDivisionError, sort_by_price data)).
Proof.
  intros Hperm.
  destruct (tt_report_year_cases float_sum sort_by_price year data Hperm)
    as [Hbad Hgood].
  split.
  - destruct data as [|r l]; [reflexivity|]. unfold all_high_perf.
    destruct (forallb tt_high_perf (r :: l)) eqn:E.
    + destruct Hbad as (avg & avg_high & ->);
        [discriminate | reflexivity | reflexivity].
    + apply Hgood. now right.
  - intros Hall. destruct data as [|r l]; [discriminate|].
    apply Hbad; [discriminate | exact Hall].
Qed.

Lemma tt_year_all_high_perf_divides_by_zero_witness :
  snd (fst (tt_report_year sum_left insertion_sort "2008"
              [tt_row 9000 true; tt_row 7000 true])) =
    (if all_high_perf [tt_row 9000 true; tt_row 7000 true]
     then Some ZeroDivisionError else None) /\
  (all_high_perf [tt_row 9000 true; tt_row 7000 true] = true ->
   exists avg avg_high,
     tt_report_year sum_left insertion_sort "2008"
       [tt_row 9000 true; tt_row 7000 true] =
     ([TT_year "2008" (List.length [tt_row 9000 true; tt_row 7000 true]) avg
         (List.length [tt_row 9000 true; tt_row 7000 true]);
       TT_high avg_high],
      Some ZeroDivisionError,
      insertion_sort [tt_row 9000 true; tt_row 7000 true])).
Proof.
  apply (tt_year_all_high_perf_divides_by_zero sum_left insertion_sort
           "2008" [tt_row 9000 true; tt_row 7000 true]).
  exact insertion_sort_perm.
Defined.

Lemma assoc_set_other {A : Type} (k k' : string) (v : A)
    (d : list (string * A)) :
  k' <> k -> assoc k' (assoc_set k v d) = assoc k' d.
Proof.
  intros Hne. induction d as [|[k1 v1] d IH]; simpl.
  - destruct (String.eqb_spec k' k); [contradiction | reflexivity].
  - destruct (String.eqb_spec k k1) as [->|Hk]; simpl.
    + destruct (String.eqb_spec k' k1); [contradiction | reflexivity].
    + now rewrite IH.
Qed.

Lemma existsb_ext_in_years (results results' : list (string * list tt_advert))
    (years : list string) :
  (forall y, In y years -> assoc y results' = assoc y results) ->
  existsb (tt_bad_year results') years = existsb (tt_bad_year results) years.
Proof.
  intros H. induction years as [|y years IH]; simpl; [reflexivity|].
  unfold tt_bad_year at 1 3. rewrite (H y (or_introl eq_refl)).
  f_equal. apply IH. intros y' Hy'. apply H. now right.
Qed.

Lemma tt_report_year_exn
    (float_sum : list spec_float -> spec_float)
    (sort_by_price : list tt_advert -> list tt_advert)
    (year : string) (data : list tt_advert) :
  (forall l, Permutation (sort_by_price l) l) ->
  snd (fst (tt_report_year float_sum sort_by_price year data)) =
  if all_high_perf data then Some ZeroDivisionError else None.
Proof.
  intros Hperm.
  destruct (tt_report_year_cases float_sum sort_by_price year data Hperm)
    as [Hbad Hgood].
  destruct data as [|r l]; [reflexivity|].
  unfold all_high_perf.
  destruct (forallb tt_high_perf (r :: l)) eqn:E.
  - destruct Hbad as (avg & avg_high & ->); [discriminate | reflexivity|].
    reflexivity.
  - apply Hgood. now right.
Qed.

Lemma tt_report_exn
    (float_sum : list spec_float -> spec_float)
    (sort_by_price : list tt_advert -> list tt_advert)
    (years : list string) :
  (forall l, Permutation (sort_by_price l) l) ->
  NoDup years ->
  forall results,
    (forall y, In y years -> assoc y results <> None) ->
    snd (tt_report float_sum sort_by_price results years) =
    if existsb (tt_bad_year results) years
    then Some ZeroDivisionError else None.
Proof.
  intros Hperm Hnd. induction Hnd as [|year rest Hnotin Hnd IH];
    intros results Hkeys; [reflexivity|].
  simpl. unfold tt_bad_year at 1.
  destruct (assoc year results) as [data|] eqn:Ea;
    [|destruct (Hkeys year (or_introl eq_refl) Ea)].
  pose proof (tt_report_year_exn float_sum sort_by_price year data Hperm)
    as Hexn.
  destruct (tt_report_year float_sum sort_by_price year data)
    as [[lines e] data'].
  simpl in Hexn. subst e.
  destruct (all_high_perf data); [reflexivity|]. simpl.
  assert (Hsame : forall y, In y rest ->
            assoc y (assoc_set year data' results) = assoc y results).
  { intros y Hy. apply assoc_set_other. intros ->. contradiction. }
  specialize (IH (assoc_set year data' results)).
  destruct (tt_report float_sum sort_by_price
              (assoc_set year data' results) rest) as [lines' e'].
  simpl in *. rewrite IH.
  - now rewrite (existsb_ext_in_years _ _ _ Hsame).
  - intros y Hy. rewrite (Hsame y Hy). apply Hkeys. now right.
Qed.

Lemma tt_target_years_NoDup : NoDup tt_target_years.
Proof.
  unfold tt_target_years.
  repeat (constructor; [simpl; intuition discriminate|]). constructor.
Qed.

(** X18.  The report of [analyze_tt.py] ends with [ZeroDivisionError]
    exactly when one of the seven target years has adverts that are all
    high-performance; otherwise it prints to the end. *)
Theorem tt_report_fails_on_all_high_perf_year
    (float_sum : list spec_float -> spec_float)
    (sort_by_price : list tt_advert -> list tt_advert)
    (results : list (string * list tt_advert)) :
  (forall l, Permutation (sort_by_price l) l) ->
  (forall y, In y tt_target_years -> assoc y results <> None) ->
  snd (tt_report float_sum sort_by_price results tt_target_years) =
  if existsb (tt_bad_year results) tt_target_years
  then Some ZeroDivisionError else None.
Proof.
  intros Hperm Hkeys.
  now apply tt_report_exn; [| apply tt_target_years_NoDup |].
Qed.

Lemma tt_report_fails_on_all_high_perf_year_witness :
  snd (tt_report sum_left insertion_sort tt_results tt_target_years) =
  if existsb (tt_bad_year tt_results) tt_target_years
  then Some ZeroDivisionError else None.
Proof.
  apply (tt_report_fails_on_all_high_perf_year sum_left insertion_sort
           tt_results insertion_sort_perm).
  intros y Hy. simpl in Hy.
  destruct Hy as [<-|[<-|[<-|[<-|[<-|[<-|[<-|[]]]]]]]]; discriminate.
Defined.

Lemma ford_avg_some (float_sum : list spec_float -> spec_float)
    (l : list ford_advert) :
  exists x, ford_avg float_sum l = Some x.
Proof.
  destruct l as [|r l]; simpl; eauto.
Qed.

Lemma ford_report_year_ok (float_sum : list spec_float -> spec_float)
    (year : string) (data : list ford_advert) (y : Z) :
  int_of_str year = Some y ->
  exists lines,
    ford_report_year float_sum year data = (lines, None) /\
    List.length lines = (match data with [] => 0 | _ => 1 end)%nat.
Proof.
  intros Hy. unfold ford_report_year.
  destruct data as [|r l] eqn:Ed; [eauto|]. rewrite <- Ed.
  assert (Hpos : (0 < List.length (map ford_price data))%nat)
    by (rewrite Ed; simpl; lia).
  destruct (div_count_pos (py_sum float_sum (map ford_price data)) _ Hpos)
    as [avg ->].
  destruct (ford_avg_some float_sum (filter ford_normal data)) as [a1 ->].
  destruct (ford_avg_some float_sum (filter ford_is_outlier_type data))
    as [a2 ->].
  rewrite Hy. eauto.
Qed.

Lemma ford_report_ok (float_sum : list spec_float -> spec_float)
    (results : list (string * list ford_advert)) (years : list string) :
  (forall y, In y years -> int_of_str y <> None) ->
  (forall y, In y years -> assoc y results <> None) ->
  snd (ford_report float_sum results years) = None /\
  List.length (fst (ford_report float_sum results years)) =
  List.length (filter (ford_has_data results) years).
Proof.
  induction years as [|year rest IH]; intros Hint Hkeys; [auto|].
  simpl. unfold ford_has_data at 1.
  destruct (assoc year results) as [data|] eqn:Ea;
    [|destruct (Hkeys year (or_introl eq_refl) Ea)].
  destruct (int_of_str year) as [y|] eqn:Ey;
    [|destruct (Hint year (or_introl eq_refl) Ey)].
  destruct (ford_report_year_ok float_sum year data y Ey)
    as (lines & -> & Hlen).
  specialize (IH (fun y H => Hint y (or_intror H))
                 (fun y H => Hkeys y (or_intror H))).
  destruct (ford_report float_sum results rest) as [lines' e'].
  simpl in *. destruct IH as [-> IH]. split; [reflexivity|].
  rewrite length_app, Hlen, IH. now destruct data.
Qed.

(** X19.  The report of [analyze_ford.py] never raises: each average over
    the normal and the outlier adverts is guarded by the test of its list,
    the year average is computed only for a year with adverts, and every
    target year is a decimal number.  It prints one line for each target
    year that has adverts and nothing for the others. *)
Theorem ford_report_never_raises
    (float_sum : list spec_float -> spec_float)
    (results : list (string * list ford_advert)) :
  (forall y, In y ford_target_years -> assoc y results <> None) ->
  snd (ford_report float_sum results ford_target_years) = None /\
  List.length (fst (ford_report float_sum results ford_target_years)) =
  List.length (filter (ford_has_data results) ford_target_years).
Proof.
  intros Hkeys. apply ford_report_ok; [|assumption].
  intros y Hy. simpl in Hy.
  destruct Hy as [<-|[<-|[<-|[<-|[<-|[<-|[<-|[]]]]]]]]; discriminate.
Qed.

Lemma ford_report_never_raises_witness :
  snd (ford_report sum_left ford_results ford_target_years) = None /\
  List.length (fst (ford_report sum_left ford_results ford_target_years)) =
  List.length (filter (ford_has_data ford_results) ford_target_years).
Proof.
  apply (ford_report_never_raises sum_left ford_results).
  intros y Hy. simpl in Hy.
  destruct Hy as [<-|[<-|[<-|[<-|[<-|[<-|[<-|[]]]]]]]]; discriminate.
Defined.

Example tt_report_example :
  tt_report sum_left insertion_sort tt_results tt_target_years =
  ([TT_no_data "2005";
    TT_year "2006" 2 (binary_normalize prec emax 7000 0 false) 1;
    TT_high (binary_normalize prec emax 6000 0 false);
    TT_normal (binary_normalize prec emax 8000 0 false);
    TT_no_data "2007";
    TT_year "2008" 2 (binary_normalize prec emax 8000 0 false) 2;
    TT_high (binary_normalize prec emax 8000 0 false)],
   Some ZeroDivisionError).
Proof. vm_compute. reflexivity. Qed.

Example ford_report_example :
  ford_report sum_left ford_results ford_target_years =
  ([Ford_year "2009" 13 (binary_normalize prec emax 8000 0 false) 0 (NInt 0)
      2 (NFloat (binary_normalize prec emax 8000 0 false))], None).
Proof. vm_compute. reflexivity. Qed.
